(** * BloomBuddy growth tracker: [contents/scripts/plant_data.py]

    A shallow embedding of the script that keeps the plant record
    ([PlantState.load], [PlantState.save], [PlantState.advance_days],
    [PlantState.water], [build_response], [main]) and the properties of the
    specification checked against it.

    Conventions of the embedding.
    - Python [int] is [Z]; Python [str] is [string] (ASCII text); a Python
      [dict] is an association list in insertion order with Python's update
      rule (an existing key keeps its position and takes the new value, a new
      key is appended).
    - [json.loads(DATA_FILE.read_text())] is represented by its outcome: the
      record file is missing, cannot be read or decoded, holds an integer
      literal too long to convert, or holds a JSON value.
      [json.dumps] raises [ValueError] on an integer of more than 4300
      decimal digits (CPython's default limit for converting between [int]
      and [str]); otherwise [json.dumps] followed by [json.loads] is the
      identity on JSON values, so [write_text(json.dumps(payload))] leaves
      the file holding [payload].
    - every [date.today()] of one run reads the same date, the argument
      [today]; creating the directory and writing the file succeed.
    - exceptions are values of [exn]; code that may raise lives in [result]
      (pure) or in [M] (with the record file and standard output as state).
    - [parse_args] is the library's argument parser; [main] is modelled from
      the parsed flag [args.water] on.
    - the builtins [int], [date.isoformat], [datetime.strptime] and the day
      difference of two dates are written out for ASCII text and for the
      dates a [date] object can hold (years 1 to 9999). *)

From Stdlib Require Import ZArith List String Ascii Bool Lia.
From Stdlib Require Import Floats.SpecFloat.
Import ListNotations.

Local Open Scope string_scope.
Local Open Scope list_scope.
Local Open Scope Z_scope.

(** ** Exceptions and results *)

Inductive exn : Type :=
| TypeError
| ValueError
| OverflowError
| AttributeError
| IndexError
| UnicodeDecodeError.

Inductive result (A : Type) : Type :=
| Ok (a : A)
| Raise (e : exn).

Arguments Ok {A} a.
Arguments Raise {A} e.

Definition rbind {A B : Type} (r : result A) (k : A -> result B) : result B :=
  match r with
  | Ok a => k a
  | Raise e => Raise e
  end.

(** ** JSON values, as [json.loads] builds them *)

#[warnings="-register-all"]
Inductive json : Type :=
| JNull
| JBool (b : bool)
| JInt (n : Z)
| JFloat (f : spec_float)
| JString (s : string)
| JArray (l : list json)
| JObject (d : list (string * json)).

(** ** Python dictionaries with string keys *)

Definition dict : Type := list (string * json).

Definition keys (d : dict) : list string := map fst d.

Fixpoint dict_get (d : dict) (k : string) : option json :=
  match d with
  | [] => None
  | (k', v) :: d' => if String.eqb k k' then Some v else dict_get d' k
  end.

(** [d.get(k, default)] *)
Definition dict_get_default (d : dict) (k : string) (default : json) : json :=
  match dict_get d k with
  | Some v => v
  | None => default
  end.

(** [d[k] = v]: an existing key keeps its place, a new one goes last. *)
Fixpoint dict_set (d : dict) (k : string) (v : json) : dict :=
  match d with
  | [] => [(k, v)]
  | (k', v') :: d' =>
      if String.eqb k k' then (k', v) :: d' else (k', v') :: dict_set d' k v
  end.

(** [{**d, **e}]: the items of [e] are stored into [d] from left to right. *)
Definition dict_update (d e : dict) : dict :=
  fold_left (fun acc kv => dict_set acc (fst kv) (snd kv)) e d.

(** A Python dict never holds a key twice. *)
Definition wf_dict (d : dict) : Prop := NoDup (keys d).

(** ** The limit on converting between [int] and [str] *)

(** [sys.get_int_max_str_digits()], at its default. *)
Definition MAX_STR_DIGITS : Z := 4300.

(** The least magnitude with more than [MAX_STR_DIGITS] decimal digits. *)
Definition INT_LIMIT : Z := 10 ^ MAX_STR_DIGITS.

Arguments INT_LIMIT : simpl never.

(** [str(n)] succeeds: [n] has at most [MAX_STR_DIGITS] decimal digits. *)
Definition int_fits (n : Z) : bool := Z.abs n <? INT_LIMIT.

Arguments int_fits n : simpl never.

(** [json.dumps(v)] succeeds: every integer in [v] can be converted. Every
    value [json.loads] returns is of this kind, since an integer literal
    beyond the limit makes [json.loads] raise. *)
Fixpoint ints_fit (v : json) : bool :=
  match v with
  | JInt n => int_fits n
  | JArray l => forallb ints_fit l
  | JObject d => forallb (fun kv => ints_fit (snd kv)) d
  | _ => true
  end.

(** ** The builtin [int] *)

Definition digit_val (c : ascii) : option Z :=
  let n := Z.of_N (N_of_ascii c) in
  if (48 <=? n) && (n <=? 57) then Some (n - 48) else None.

(** The white space [int] strips from an ASCII string: tab, line feed,
    vertical tab, form feed, carriage return and space. *)
Definition is_space (c : ascii) : bool :=
  let n := Z.of_N (N_of_ascii c) in
  ((9 <=? n) && (n <=? 13)) || (n =? 32).

Fixpoint lstrip (l : list ascii) : list ascii :=
  match l with
  | c :: l' => if is_space c then lstrip l' else l
  | [] => []
  end.

Definition strip (l : list ascii) : list ascii :=
  rev (lstrip (rev (lstrip l))).

(** Decimal digits in which single underscores may separate digits.
    [after_digit] tells whether the previous character was a digit. *)
Fixpoint int_digits (acc : Z) (after_digit : bool) (l : list ascii)
  : option Z :=
  match l with
  | [] => if after_digit then Some acc else None
  | c :: l' =>
      match digit_val c with
      | Some d => int_digits (10 * acc + d) true l'
      | None =>
          if Ascii.eqb c "_"%char && after_digit
          then int_digits acc false l'
          else None
      end
  end.

(** The number of digit characters of a numeral. *)
Definition count_digits (l : list ascii) : Z :=
  Z.of_nat
    (List.length
       (filter (fun c => match digit_val c with
                         | Some _ => true
                         | None => false
                         end) l)).

(** [int(s)] for a string [s]: surrounding white space, an optional sign,
    then digits, at most [MAX_STR_DIGITS] of them. Anything else is a
    [ValueError]. *)
Definition int_of_str (s : string) : result Z :=
  let body (neg : bool) (l : list ascii) :=
    match int_digits 0 false l with
    | Some n =>
        if MAX_STR_DIGITS <? count_digits l then Raise ValueError
        else Ok (if neg then - n else n)
    | None => Raise ValueError
    end in
  match strip (list_ascii_of_string s) with
  | "-"%char :: l => body true l
  | "+"%char :: l => body false l
  | l => body false l
  end.

(** [int(x)] for a float [x]: truncation towards zero; [nan] and the
    infinities have no integer value. *)
Definition int_of_float (f : spec_float) : result Z :=
  match f with
  | S754_zero _ => Ok 0
  | S754_infinity _ => Raise OverflowError
  | S754_nan => Raise ValueError
  | S754_finite neg m e =>
      let mag := if 0 <=? e then Z.pos m * 2 ^ e
                 else Z.pos m / 2 ^ (- e) in
      Ok (if neg then - mag else mag)
  end.

(** [int(v)] for a value [v] read from JSON. *)
Definition py_int (v : json) : result Z :=
  match v with
  | JNull => Raise TypeError
  | JBool b => Ok (if b then 1 else 0)
  | JInt n => Ok n
  | JFloat f => int_of_float f
  | JString s => int_of_str s
  | JArray _ => Raise TypeError
  | JObject _ => Raise TypeError
  end.

(** ** Calendar dates ([datetime.date]) *)

Record date : Type := mkdate { year : Z; month : Z; day : Z }.

Definition is_leap (y : Z) : bool :=
  (y mod 4 =? 0) && (negb (y mod 100 =? 0) || (y mod 400 =? 0)).

Definition days_in_month (y m : Z) : Z :=
  if (m =? 2) && is_leap y then 29
  else nth (Z.to_nat m) [-1; 31; 28; 31; 30; 31; 30; 31; 31; 30; 31; 30; 31] 0.

Definition days_before_year (y : Z) : Z :=
  let y1 := y - 1 in
  y1 * 365 + y1 / 4 - y1 / 100 + y1 / 400.

Definition days_before_month (y m : Z) : Z :=
  nth (Z.to_nat m) [-1; 0; 31; 59; 90; 120; 151; 181; 212; 243; 273; 304; 334] 0
  + (if (2 <? m) && is_leap y then 1 else 0).

(** [d.toordinal()]: 1 for 0001-01-01. *)
Definition toordinal (d : date) : Z :=
  days_before_year (year d) + days_before_month (year d) (month d) + day d.

(** [(a - b).days] *)
Definition days_between (a b : date) : Z := toordinal a - toordinal b.

(** The values a [date] object can take. *)
Definition valid_dateb (d : date) : bool :=
  (1 <=? year d) && (year d <=? 9999)
  && (1 <=? month d) && (month d <=? 12)
  && (1 <=? day d) && (day d <=? days_in_month (year d) (month d)).

Definition valid_date (d : date) : Prop := valid_dateb d = true.

(** The character of a decimal digit. *)
Definition digit_char (n : Z) : ascii := ascii_of_N (Z.to_N (48 + n)).

(** [d.isoformat()], that is ["%04d-%02d-%02d" % (year, month, day)]. *)
Definition isoformat (d : date) : string :=
  let y := year d in
  let m := month d in
  let dd := day d in
  String (digit_char (y / 1000 mod 10))
    (String (digit_char (y / 100 mod 10))
      (String (digit_char (y / 10 mod 10))
        (String (digit_char (y mod 10))
          (String "-"
            (String (digit_char (m / 10 mod 10))
              (String (digit_char (m mod 10))
                (String "-"
                  (String (digit_char (dd / 10 mod 10))
                    (String (digit_char (dd mod 10)) EmptyString))))))))).

Definition in_range (lo hi : Z) (c : ascii) : option Z :=
  match digit_val c with
  | Some v => if (lo <=? v) && (v <=? hi) then Some v else None
  | None => None
  end.

(** The directive [%Y]: four digits. *)
Definition re_year (s : string) : option (Z * string) :=
  match s with
  | String a (String b (String c (String d rest))) =>
      match digit_val a, digit_val b, digit_val c, digit_val d with
      | Some a, Some b, Some c, Some d =>
          Some (1000 * a + 100 * b + 10 * c + d, rest)
      | _, _, _, _ => None
      end
  | _ => None
  end.

(** The directive [%m]: [1[0-2]|0[1-9]|[1-9]]. *)
Definition re_month (s : string) : option (Z * string) :=
  match s with
  | String a rest =>
      let one_digit :=
        match in_range 1 9 a with
        | Some v => Some (v, rest)
        | None => None
        end in
      match rest with
      | String b rest' =>
          if Ascii.eqb a "1" then
            match in_range 0 2 b with
            | Some v => Some (10 + v, rest')
            | None => one_digit
            end
          else if Ascii.eqb a "0" then
            match in_range 1 9 b with
            | Some v => Some (v, rest')
            | None => None
            end
          else one_digit
      | EmptyString => one_digit
      end
  | EmptyString => None
  end.

(** The directive [%d]: [3[0-1]|[1-2]\d|0[1-9]|[1-9]| [1-9]]. *)
Definition re_day (s : string) : option (Z * string) :=
  match s with
  | String a rest =>
      let one_digit :=
        match in_range 1 9 a with
        | Some v => Some (v, rest)
        | None => None
        end in
      match rest with
      | String b rest' =>
          if Ascii.eqb a "3" then
            match in_range 0 1 b with
            | Some v => Some (30 + v, rest')
            | None => one_digit
            end
          else if Ascii.eqb a "1" || Ascii.eqb a "2" then
            match digit_val a, digit_val b with
            | Some u, Some v => Some (10 * u + v, rest')
            | _, _ => one_digit
            end
          else if Ascii.eqb a "0" || Ascii.eqb a " " then
            match in_range 1 9 b with
            | Some v => Some (v, rest')
            | None => None
            end
          else one_digit
      | EmptyString => one_digit
      end
  | EmptyString => None
  end.

Definition expect (c : ascii) (s : string) : option string :=
  match s with
  | String a rest => if Ascii.eqb a c then Some rest else None
  | EmptyString => None
  end.

(** [datetime.strptime(s, "%Y-%m-%d").date()] for a string [s]: the text
    must match the format to its end and name a date that exists;
    [None] stands for the [ValueError] raised otherwise. *)
Definition strptime_ymd (s : string) : option date :=
  match re_year s with
  | Some (y, s1) =>
      match expect "-" s1 with
      | Some s2 =>
          match re_month s2 with
          | Some (m, s3) =>
              match expect "-" s3 with
              | Some s4 =>
                  match re_day s4 with
                  | Some (d, EmptyString) =>
                      let r := mkdate y m d in
                      if valid_dateb r then Some r else None
                  | _ => None
                  end
              | None => None
              end
          | None => None
          end
      | None => None
      end
  | None => None
  end.

(** [datetime.strptime(v, "%Y-%m-%d").date()] for a JSON value [v]:
    a value that is not a string is a [TypeError]. *)
Definition strptime (v : json) : result date :=
  match v with
  | JString s =>
      match strptime_ymd s with
      | Some d => Ok d
      | None => Raise ValueError
      end
  | _ => Raise TypeError
  end.

(** ** The record file and the state of a run *)

(** What [DATA_FILE] holds when it is read. *)
Inductive file : Type :=
| Missing                 (* [DATA_FILE.exists()] is false *)
| Unreadable              (* [read_text] raises [OSError], or [json.loads]
                             raises [JSONDecodeError] *)
| Undecodable             (* the bytes are not text: [read_text] raises
                             [UnicodeDecodeError] *)
| LongInteger             (* the text holds an integer literal of more than
                             4300 digits: [json.loads] raises a plain
                             [ValueError] *)
| Content (v : json).     (* [json.loads] returns [v] *)

Record world : Type := mkworld {
  data_file : file;
  stdout : list json
}.

(** Computations that read and write the world and may raise. *)
Definition M (A : Type) : Type := world -> result A * world.

Definition ret {A : Type} (a : A) : M A := fun w => (Ok a, w).

Definition raise {A : Type} (e : exn) : M A := fun w => (Raise e, w).

Definition bind {A B : Type} (m : M A) (k : A -> M B) : M B :=
  fun w =>
    match m w with
    | (Ok a, w') => k a w'
    | (Raise e, w') => (Raise e, w')
    end.

Definition lift {A : Type} (r : result A) : M A := fun w => (r, w).

Notation "x <- m ;; k" := (bind m (fun x => k))
  (at level 61, m at next level, right associativity).
Notation "m ;;; k" := (bind m (fun _ => k))
  (at level 61, right associativity).

Definition read_file : M file := fun w => (Ok (data_file w), w).

Definition write_file (v : json) : M unit :=
  fun w => (Ok tt, mkworld (Content v) (stdout w)).

Definition print (v : json) : M unit :=
  fun w => (Ok tt, mkworld (data_file w) (stdout w ++ [v])).

(** ** [PlantState] *)

Definition STAGE_NAMES : list string := ["seed"; "sprout"; "leaf"; "bloom"].

Definition MAX_STAGE_INDEX : Z := Z.of_nat (List.length STAGE_NAMES) - 1.

Record PlantState : Type := mkPlantState {
  last_opened : date;
  growth_stage : Z;
  day_count : Z;
  extra : dict
}.

Definition known_keys : list string :=
  ["last_opened"; "growth_stage"; "day_count"].

Definition is_known (k : string) : bool :=
  existsb (String.eqb k) known_keys.

(** The items [PlantState.save] writes from the state's own fields. *)
Definition known_items (s : PlantState) : dict :=
  [("last_opened", JString (isoformat (last_opened s)));
   ("growth_stage", JInt (growth_stage s));
   ("day_count", JInt (day_count s))].

(** [PlantState.save]: the three known items first, then [**self.extra]. *)
Definition payload (s : PlantState) : dict :=
  dict_update (known_items s) (extra s).

(** [json.dumps] builds the whole text before [write_text] is called: when
    an integer of the payload is beyond the digit limit it raises and the
    file is left as it was. *)
Definition save (s : PlantState) : M unit :=
  if ints_fit (JObject (payload s))
  then write_file (JObject (payload s))
  else raise ValueError.

(** [cls(last_opened=today)] *)
Definition default_state (today : date) : PlantState :=
  mkPlantState today 0 1 [].

(** [raw.get]: only a dict has the method. *)
Definition as_dict (raw : json) : result dict :=
  match raw with
  | JObject d => Ok d
  | _ => Raise AttributeError
  end.

(** [raw.get("last_opened")] parsed in the [try] block, with its fallback:
    [except (TypeError, ValueError): last_opened = date.today()]. *)
Definition loaded_date (today : date) (d : dict) : date :=
  let last_opened_str := dict_get_default d "last_opened" JNull in
  match strptime last_opened_str with
  | Ok lo => lo
  | Raise _ => today
  end.

(** The part of [PlantState.load] that follows [json.loads]. *)
Definition load_raw (today : date) (raw : json) : result PlantState :=
  rbind (as_dict raw) (fun d =>
  let last_opened := loaded_date today d in
  rbind (py_int (dict_get_default d "growth_stage" (JInt 0)))
    (fun growth_stage =>
  rbind (py_int (dict_get_default d "day_count"
                   (JInt (Z.max 1 (growth_stage + 1)))))
    (fun day_count =>
  let extra := filter (fun kv => negb (is_known (fst kv))) d in
  Ok (mkPlantState last_opened
        (Z.max 0 (Z.min growth_stage MAX_STAGE_INDEX))
        (Z.max 1 day_count)
        extra)))).

(** [PlantState.load] *)
Definition load (today : date) : M PlantState :=
  f <- read_file ;;
  match f with
  | Missing =>
      let state := default_state today in
      save state ;;; ret state
  | Unreadable =>
      let state := default_state today in
      save state ;;; ret state
  | Undecodable => raise UnicodeDecodeError
  | LongInteger => raise ValueError
  | Content raw => lift (load_raw today raw)
  end.

(** [PlantState.advance_days] *)
Definition advance_days (today : date) (days : Z) (s : PlantState)
  : PlantState :=
  if days <=? 0 then s
  else mkPlantState today
         (Z.min (growth_stage s + days) MAX_STAGE_INDEX)
         (day_count s + days)
         (extra s).

(** [PlantState.water] *)
Definition water (today : date) (s : PlantState) : PlantState :=
  let growth_stage' :=
    if growth_stage s <? MAX_STAGE_INDEX then growth_stage s + 1
    else growth_stage s in
  mkPlantState today
    growth_stage'
    (Z.max (day_count s) (growth_stage' + 1))
    (extra s).

(** [l[i]] for a Python list: a negative index counts from the end. *)
Definition py_index {A : Type} (l : list A) (i : Z) : result A :=
  let n := Z.of_nat (List.length l) in
  let j := if i <? 0 then i + n else i in
  if (0 <=? j) && (j <? n) then
    match nth_error l (Z.to_nat j) with
    | Some a => Ok a
    | None => Raise IndexError
    end
  else Raise IndexError.

(** [build_response] *)
Definition build_response (state : PlantState) (days_idle : Z)
  : result dict :=
  rbind (py_index STAGE_NAMES (growth_stage state)) (fun stage_name =>
  Ok [("stage", JString stage_name);
      ("stage_index", JInt (growth_stage state));
      ("day", JInt (day_count state));
      ("image", JString ("assets/plant_" ++ stage_name ++ ".png")%string);
      ("is_wilted", JBool (3 <? days_idle));
      ("days_idle", JInt days_idle)]).

(** [main], from the parsed arguments on: [water_flag] is [args.water]. *)
Definition main (water_flag : bool) (today : date) : M Z :=
  state <- load today ;;
  let days_since_last_open := days_between today (last_opened state) in
  let state :=
    if 0 <? days_since_last_open
    then advance_days today days_since_last_open state
    else state in
  let state := if water_flag then water today state else state in
  save state ;;;
  response <- lift (build_response state days_since_last_open) ;;
  print (JObject response) ;;;
  ret 0.

(** [sys.exit(main(...))]: the exit status of the process and the world it
    leaves; an exception that leaves [main] ends the process with status 1. *)
Definition run (water_flag : bool) (today : date) (w : world) : Z * world :=
  match main water_flag today w with
  | (Ok status, w') => (status, w')
  | (Raise _, w') => (1, w')
  end.

(** A sequence of calls of the two mutating methods, each with the date
    [date.today()] returned at that call. *)
Inductive op : Type :=
| OpAdvance (today : date) (days : Z)
| OpWater (today : date).

Definition apply_op (s : PlantState) (o : op) : PlantState :=
  match o with
  | OpAdvance today days => advance_days today days s
  | OpWater today => water today s
  end.

Definition apply_ops (ops : list op) (s : PlantState) : PlantState :=
  fold_left apply_op ops s.

(** ** Predicates used in the statements *)

(** The record file holds a value [json.loads] can return: the keys of its
    top-level object are distinct. *)
Definition wf_file (f : file) : Prop :=
  match f with
  | Content (JObject d) => wf_dict d
  | _ => True
  end.

(** In the record [p] the three known keys hold the state's own values. *)
Definition holds_own_values (s : PlantState) (p : dict) : Prop :=
  dict_get p "last_opened" = Some (JString (isoformat (last_opened s)))
  /\ dict_get p "growth_stage" = Some (JInt (growth_stage s))
  /\ dict_get p "day_count" = Some (JInt (day_count s)).


(** The invariant of [growth_stage]. *)
Definition stage_in_range (s : PlantState) : Prop :=
  0 <= growth_stage s <= 3.

(** The state [main] saves for a loaded state [s]: the body of [main]
    between [PlantState.load()] and [state.save()]. *)
Definition run_state (water_flag : bool) (today : date) (s : PlantState)
  : PlantState :=
  let days_since_last_open := days_between today (last_opened s) in
  let s1 :=
    if 0 <? days_since_last_open
    then advance_days today days_since_last_open s
    else s in
  if water_flag then water today s1 else s1.

(** The day count is at least what the stage implies. *)
Definition day_count_covers_stage (s : PlantState) : Prop :=
  growth_stage s + 1 <= day_count s.

(** The response [build_response] builds around a stage name. *)
Definition response_of (stage : string) (s : PlantState) (days_idle : Z)
  : dict :=
  [("stage", JString stage);
   ("stage_index", JInt (growth_stage s));
   ("day", JInt (day_count s));
   ("image", JString ("assets/plant_" ++ stage ++ ".png")%string);
   ("is_wilted", JBool (3 <? days_idle));
   ("days_idle", JInt days_idle)].

(** ** Proof steps used more than once *)

(** Case analysis on an integer known to lie in a literal range; every
    case is closed by computation. *)
Ltac split_range d :=
  match goal with
  | H : ?lo <= d <= ?hi |- _ =>
      first
        [ exfalso; lia
        | destruct (Z.eq_dec d lo) as [->|];
          [ reflexivity
          | let lo' := eval compute in (lo + 1) in
            assert (lo' <= d <= hi) by lia; clear H; split_range d ] ]
  end.

(** * Properties *)

(** ** Dictionaries *)

Section DictFacts.

Lemma dict_get_app (d e : dict) (k : string) :
  dict_get (d ++ e) k =
  match dict_get d k with
  | Some v => Some v
  | None => dict_get e k
  end.
Proof.
  induction d as [|[k' v'] d IH]; simpl; [reflexivity|].
  destruct (String.eqb k k'); [reflexivity | exact IH].
Qed.

Lemma dict_get_set (d : dict) (k k' : string) (v : json) :
  dict_get (dict_set d k' v) k =
  if String.eqb k k' then Some v else dict_get d k.
Proof.
  induction d as [|[k0 v0] d IH]; simpl.
  - reflexivity.
  - destruct (String.eqb k' k0) eqn:E; simpl.
    + apply String.eqb_eq in E; subst k0.
      destruct (String.eqb k k'); reflexivity.
    + destruct (String.eqb k k0) eqn:E0.
      * apply String.eqb_eq in E0; subst k0.
        rewrite String.eqb_sym, E. reflexivity.
      * exact IH.
Qed.

(** After [{**d, **e}] a key holds the value of its last item in [e],
    and its value in [d] when [e] has none. *)
Lemma dict_get_update (e d : dict) (k : string) :
  dict_get (dict_update d e) k =
  match dict_get (rev e) k with
  | Some v => Some v
  | None => dict_get d k
  end.
Proof.
  unfold dict_update.
  revert d; induction e as [|[k0 v0] e IH]; intros d; simpl.
  - reflexivity.
  - rewrite IH, dict_get_app, dict_get_set; simpl.
    destruct (dict_get (rev e) k); [reflexivity|].
    destruct (String.eqb k k0); reflexivity.
Qed.

Lemma dict_get_None (d : dict) (k : string) :
  dict_get d k = None <-> ~ In k (keys d).
Proof.
  induction d as [|[k' v'] d IH]; simpl.
  - tauto.
  - destruct (String.eqb k k') eqn:E.
    + apply String.eqb_eq in E. split; [discriminate | intros H; exfalso; auto].
    + apply String.eqb_neq in E. rewrite IH. split.
      * intros H [H0|H0]; [congruence | contradiction].
      * intros H H0; apply H; right; exact H0.
Qed.




Lemma dict_set_fresh (d : dict) (k : string) (v : json) :
  ~ In k (keys d) -> dict_set d k v = d ++ [(k, v)].
Proof.
  induction d as [|[k' v'] d IH]; simpl; intros H; [reflexivity|].
  destruct (String.eqb k k') eqn:E.
  - apply String.eqb_eq in E. exfalso; auto.
  - f_equal. apply IH. intros H0; apply H; right; exact H0.
Qed.

(** Merging a dict whose keys are all new appends its items in order. *)
Lemma dict_update_fresh (e d : dict) :
  wf_dict e ->
  (forall k, In k (keys e) -> ~ In k (keys d)) ->
  dict_update d e = d ++ e.
Proof.
  unfold dict_update, wf_dict.
  revert d; induction e as [|[k v] e IH]; intros d Hnd Hfresh; simpl.
  - rewrite app_nil_r. reflexivity.
  - simpl in Hnd. inversion Hnd as [|? ? Hk Hnd']; subst.
    rewrite dict_set_fresh by (apply Hfresh; left; reflexivity).
    rewrite IH.
    + rewrite <- app_assoc. reflexivity.
    + exact Hnd'.
    + intros k' Hin. unfold keys. rewrite map_app, in_app_iff. simpl.
      intros [H|[H|[]]].
      * apply (Hfresh k'); [right; exact Hin | exact H].
      * subst k'. apply Hk. exact Hin.
Qed.

End DictFacts.

(** ** Dates: [strptime] reads back what [isoformat] writes *)

Section DateFacts.

Lemma digit_val_char (n : Z) :
  0 <= n <= 9 -> digit_val (digit_char n) = Some n.
Proof. intros H. split_range n. Qed.

Lemma re_year_digits (y : Z) (rest : string) :
  0 <= y <= 9999 ->
  re_year (String (digit_char (y / 1000 mod 10))
            (String (digit_char (y / 100 mod 10))
              (String (digit_char (y / 10 mod 10))
                (String (digit_char (y mod 10)) rest))))
  = Some (y, rest).
Proof.
  intros H. unfold re_year.
  rewrite !digit_val_char by (Z.div_mod_to_equations; lia).
  do 2 f_equal.
  Z.div_mod_to_equations. lia.
Qed.

Lemma re_month_digits (m : Z) (rest : string) :
  1 <= m <= 12 ->
  re_month (String (digit_char (m / 10 mod 10))
             (String (digit_char (m mod 10)) (String "-" rest)))
  = Some (m, String "-" rest).
Proof. intros H. split_range m. Qed.

Lemma re_day_digits (d : Z) :
  1 <= d <= 31 ->
  re_day (String (digit_char (d / 10 mod 10))
           (String (digit_char (d mod 10)) EmptyString))
  = Some (d, EmptyString).
Proof. intros H. split_range d. Qed.

Lemma days_in_month_le_31 (y m : Z) : days_in_month y m <= 31.
Proof.
  unfold days_in_month.
  destruct ((m =? 2) && is_leap y); [lia|].
  destruct (Z.to_nat m) as [|[|[|[|[|[|[|[|[|[|[|[|[|n]]]]]]]]]]]]];
    simpl; try lia.
  destruct n; simpl; lia.
Qed.

Lemma valid_date_bounds (d : date) :
  valid_date d ->
  1 <= year d <= 9999 /\ 1 <= month d <= 12 /\ 1 <= day d <= 31.
Proof.
  unfold valid_date, valid_dateb. intros H.
  repeat (apply andb_true_iff in H; destruct H as [H ?]).
  repeat match goal with
         | H : (_ <=? _) = true |- _ => apply Z.leb_le in H
         end.
  pose proof (days_in_month_le_31 (year d) (month d)). lia.
Qed.

Lemma strptime_ymd_isoformat (d : date) :
  valid_date d -> strptime_ymd (isoformat d) = Some d.
Proof.
  intros Hv. destruct (valid_date_bounds d Hv) as (Hy & Hm & Hd).
  unfold strptime_ymd, isoformat.
  rewrite re_year_digits by lia. cbn [expect].
  rewrite Ascii.eqb_refl.
  rewrite re_month_digits by lia. cbn [expect].
  rewrite Ascii.eqb_refl.
  rewrite re_day_digits by lia.
  destruct d as [y m dd]; simpl in *.
  unfold valid_date in Hv. rewrite Hv. reflexivity.
Qed.

Lemma strptime_ymd_valid (s : string) (d : date) :
  strptime_ymd s = Some d -> valid_date d.
Proof.
  unfold strptime_ymd, valid_date.
  destruct (re_year s) as [[y s1]|]; [|discriminate].
  destruct (expect "-" s1) as [s2|]; [|discriminate].
  destruct (re_month s2) as [[m s3]|]; [|discriminate].
  destruct (expect "-" s3) as [s4|]; [|discriminate].
  destruct (re_day s4) as [[dd [|? ?]]|]; try discriminate.
  destruct (valid_dateb (mkdate y m dd)) eqn:E; [|discriminate].
  intros H; inversion H; subst. exact E.
Qed.

End DateFacts.

(** ** When [save] writes *)

Section DumpFacts.

Lemma INT_LIMIT_large : 1000 < INT_LIMIT.
Proof.
  change 1000 with (10 ^ 3). unfold INT_LIMIT, MAX_STR_DIGITS.
  apply Z.pow_lt_mono_r; lia.
Qed.

Lemma int_fits_small (n : Z) : Z.abs n <= 1000 -> int_fits n = true.
Proof.
  intros H. unfold int_fits. apply Z.ltb_lt.
  pose proof INT_LIMIT_large. lia.
Qed.



Lemma ints_fit_all (d : dict) :
  ints_fit (JObject d) = true <->
  (forall k v, In (k, v) d -> ints_fit v = true).
Proof.
  cbn [ints_fit]. rewrite forallb_forall. split.
  - intros H k v Hin. exact (H (k, v) Hin).
  - intros H [k v] Hin. exact (H k v Hin).
Qed.

Lemma In_dict_set (d : dict) (k k' : string) (v v' : json) :
  In (k, v) (dict_set d k' v') -> In (k, v) d \/ v = v'.
Proof.
  induction d as [|[k0 v0] d IH]; simpl.
  - intros [H|[]]. inversion H. auto.
  - destruct (String.eqb k' k0); simpl.
    + intros [H|H]; [inversion H|]; auto.
    + intros [H|H]; [auto|]. destruct (IH H); auto.
Qed.

Lemma In_dict_update (e d : dict) (k : string) (v : json) :
  In (k, v) (dict_update d e) ->
  In (k, v) d \/ exists k', In (k', v) e.
Proof.
  unfold dict_update. revert d.
  induction e as [|[k0 v0] e IH]; intros d; simpl; [auto|].
  intros H. destruct (IH _ H) as [H0|[k' H0]].
  - destruct (In_dict_set _ _ _ _ _ H0) as [H1|H1]; [auto|].
    subst v0. right. exists k0. auto.
  - right. exists k'. auto.
Qed.

(** A payload can be written when the two counters and the values of
    [extra] can. *)
Lemma payload_fits (s : PlantState) :
  int_fits (growth_stage s) = true ->
  int_fits (day_count s) = true ->
  ints_fit (JObject (extra s)) = true ->
  ints_fit (JObject (payload s)) = true.
Proof.
  intros Hg Hd He. apply ints_fit_all. intros k v Hin.
  unfold payload in Hin.
  destruct (In_dict_update _ _ _ _ Hin) as [H|[k' H]].
  - unfold known_items in H. simpl in H.
    destruct H as [H|[H|[H|[]]]]; inversion H; subst; auto.
  - exact (proj1 (ints_fit_all (extra s)) He k' v H).
Qed.

Lemma default_state_fits (today : date) :
  ints_fit (JObject (payload (default_state today))) = true.
Proof.
  apply payload_fits; try reflexivity; apply int_fits_small; simpl; lia.
Qed.

Lemma save_ok (s : PlantState) (w : world) :
  ints_fit (JObject (payload s)) = true ->
  save s w = (Ok tt, mkworld (Content (JObject (payload s))) (stdout w)).
Proof. intros H. unfold save. rewrite H. reflexivity. Qed.

Lemma save_raises (s : PlantState) (w : world) :
  ints_fit (JObject (payload s)) = false ->
  save s w = (Raise ValueError, w).
Proof. intros H. unfold save. rewrite H. reflexivity. Qed.

Lemma save_cases (s : PlantState) (w : world) :
  if ints_fit (JObject (payload s))
  then save s w
       = (Ok tt, mkworld (Content (JObject (payload s))) (stdout w))
  else save s w = (Raise ValueError, w).
Proof.
  destruct (ints_fit (JObject (payload s))) eqn:E;
    [apply save_ok | apply save_raises]; exact E.
Qed.


End DumpFacts.

(** ** What [load] returns *)

Section LoadFacts.

Lemma MAX_STAGE_INDEX_eq : MAX_STAGE_INDEX = 3.
Proof. reflexivity. Qed.

Lemma load_raw_inv (today : date) (raw : json) (s : PlantState) :
  load_raw today raw = Ok s ->
  exists d gs dc,
    raw = JObject d
    /\ py_int (dict_get_default d "growth_stage" (JInt 0)) = Ok gs
    /\ py_int (dict_get_default d "day_count" (JInt (Z.max 1 (gs + 1))))
       = Ok dc
    /\ s = mkPlantState (loaded_date today d)
             (Z.max 0 (Z.min gs 3)) (Z.max 1 dc)
             (filter (fun kv => negb (is_known (fst kv))) d).
Proof.
  unfold load_raw. destruct raw; simpl; try discriminate.
  destruct (py_int (dict_get_default d "growth_stage" (JInt 0)))
    as [gs|] eqn:Egs; simpl; [|discriminate].
  destruct (py_int (dict_get_default d "day_count"
                      (JInt (Z.max 1 (gs + 1))))) as [dc|] eqn:Edc;
    simpl; [|discriminate].
  intros H; inversion H; subst.
  exists d, gs, dc. repeat split; assumption.
Qed.

Lemma load_inv (today : date) (w w' : world) (s : PlantState) :
  load today w = (Ok s, w') ->
  ((data_file w = Missing \/ data_file w = Unreadable)
   /\ s = default_state today
   /\ w' = mkworld (Content (JObject (payload s))) (stdout w))
  \/ (exists raw, data_file w = Content raw
                  /\ load_raw today raw = Ok s /\ w' = w).
Proof.
  unfold load, bind, read_file, ret, raise, lift.
  destruct (data_file w) as [| | | |raw] eqn:E;
    try rewrite (save_ok _ _ (default_state_fits today)); intros H.
  - inversion H; subst. left. auto.
  - inversion H; subst. left. auto.
  - discriminate.
  - discriminate.
  - inversion H as [[H0 H1]]. right. exists raw. rewrite H0. auto.
Qed.

Lemma loaded_date_valid (today : date) (d : dict) :
  valid_date today -> valid_date (loaded_date today d).
Proof.
  intros Hv. unfold loaded_date, strptime.
  destruct (dict_get_default d "last_opened" JNull); try exact Hv.
  destruct (strptime_ymd s) eqn:E; [|exact Hv].
  exact (strptime_ymd_valid _ _ E).
Qed.

Lemma filter_unknown_keys (d : dict) (k : string) :
  In k (keys (filter (fun kv => negb (is_known (fst kv))) d)) ->
  is_known k = false.
Proof.
  unfold keys. rewrite in_map_iff. intros [[k' v] [Hk Hin]].
  simpl in Hk; subst k'. apply filter_In in Hin. destruct Hin as [_ H].
  simpl in H. apply negb_true_iff. exact H.
Qed.

Lemma filter_wf (d : dict) (p : string * json -> bool) :
  wf_dict d -> wf_dict (filter p d).
Proof.
  unfold wf_dict, keys.
  induction d as [|[k v] d IH]; simpl; intros H; [constructor|].
  inversion H as [|? ? Hk Hnd]; subst.
  destruct (p (k, v)); simpl; [|exact (IH Hnd)].
  constructor; [|exact (IH Hnd)].
  intros Hin. apply Hk. apply in_map_iff in Hin.
  destruct Hin as [kv [E Hin]]. apply filter_In in Hin.
  apply in_map_iff. exists kv. tauto.
Qed.

Lemma is_known_iff (k : string) : is_known k = true <-> In k known_keys.
Proof.
  unfold is_known. rewrite existsb_exists. split.
  - intros [x [Hin E]]. apply String.eqb_eq in E. subst x. exact Hin.
  - intros H. exists k. split; [exact H | apply String.eqb_refl].
Qed.

(** The extra mapping of a loaded state holds no known key. *)
Lemma load_extra_unknown (today : date) (w w' : world) (s : PlantState) :
  load today w = (Ok s, w') ->
  forall k, In k (keys (extra s)) -> is_known k = false.
Proof.
  intros H k Hin. destruct (load_inv _ _ _ _ H) as [(_ & E & _)|(raw & _ & E & _)].
  - subst s. destruct Hin.
  - destruct (load_raw_inv _ _ _ E) as (d & gs & dc & _ & _ & _ & Es).
    subst s. simpl in Hin. exact (filter_unknown_keys _ _ Hin).
Qed.

(** Neither mutating method touches [extra]. *)
Lemma apply_ops_extra (ops : list op) (s : PlantState) :
  extra (apply_ops ops s) = extra s.
Proof.
  unfold apply_ops. revert s.
  induction ops as [|o ops IH]; intros s; simpl; [reflexivity|].
  rewrite IH. destruct o as [today days|today]; simpl.
  - unfold advance_days. destruct (days <=? 0); reflexivity.
  - reflexivity.
Qed.

(** The value [save] writes under a key: the last item of that name in
    [extra], and the state's own item when [extra] has none. *)
Lemma payload_get (s : PlantState) (k : string) :
  dict_get (payload s) k =
  match dict_get (rev (extra s)) k with
  | Some v => Some v
  | None => dict_get (known_items s) k
  end.
Proof. unfold payload. apply dict_get_update. Qed.

Lemma payload_get_own (s : PlantState) (k : string) :
  ~ In k (keys (extra s)) ->
  dict_get (payload s) k = dict_get (known_items s) k.
Proof.
  intros H. rewrite payload_get.
  replace (dict_get (rev (extra s)) k) with (@None json); [reflexivity|].
  symmetry. apply dict_get_None. unfold keys. rewrite map_rev.
  intros Hin. apply H. apply in_rev. exact Hin.
Qed.

End LoadFacts.

(** ** The two mutating methods *)

(** C5. [advance_days(days)] with [days <= 0] changes nothing; with
    [days > 0] it sets [growth_stage] to [min(growth_stage + days, 3)],
    adds exactly [days] to [day_count] (no cap) and sets [last_opened] to
    today's date. *)
Theorem advance_days_spec (today : date) (days : Z) (s : PlantState) :
  (days <= 0 -> advance_days today days s = s)
  /\ (0 < days ->
      growth_stage (advance_days today days s)
        = Z.min (growth_stage s + days) 3
      /\ day_count (advance_days today days s) = day_count s + days
      /\ last_opened (advance_days today days s) = today).
Proof.
  unfold advance_days. split; intros H.
  - apply Z.leb_le in H. rewrite H. reflexivity.
  - apply Z.leb_gt in H. rewrite H. simpl. auto.
Qed.

Lemma advance_days_spec_witness :
  advance_days (mkdate 2024 3 3) (-2)
    (mkPlantState (mkdate 2024 3 1) 1 4 []) =
    mkPlantState (mkdate 2024 3 1) 1 4 []
  /\ growth_stage (advance_days (mkdate 2024 3 3) 5
                     (mkPlantState (mkdate 2024 2 27) 1 4 [])) = 3
  /\ day_count (advance_days (mkdate 2024 3 3) 5
                  (mkPlantState (mkdate 2024 2 27) 1 4 [])) = 9.
Proof.
  split.
  - destruct (advance_days_spec (mkdate 2024 3 3) (-2)
                (mkPlantState (mkdate 2024 3 1) 1 4 [])) as [H _].
    apply H. lia.
  - destruct (advance_days_spec (mkdate 2024 3 3) 5
                (mkPlantState (mkdate 2024 2 27) 1 4 [])) as [_ H].
    destruct (H ltac:(lia)) as (Hg & Hd & _).
    split; [exact Hg | exact Hd].
Defined.

(** C6. [water()] adds exactly 1 to [growth_stage] below 3 and leaves it at
    3 when it is 3; then [day_count] becomes
    [max(day_count, new growth_stage + 1)], so it does not decrease and is at
    least the new stage plus 1; [last_opened] becomes today's date. *)
Theorem water_spec (today : date) (s : PlantState) :
  (growth_stage s < 3 ->
   growth_stage (water today s) = growth_stage s + 1)
  /\ (growth_stage s = 3 -> growth_stage (water today s) = 3)
  /\ day_count (water today s)
     = Z.max (day_count s) (growth_stage (water today s) + 1)
  /\ day_count s <= day_count (water today s)
  /\ growth_stage (water today s) + 1 <= day_count (water today s)
  /\ last_opened (water today s) = today.
Proof.
  unfold water. rewrite MAX_STAGE_INDEX_eq. simpl.
  destruct (growth_stage s <? 3) eqn:E;
    [apply Z.ltb_lt in E | apply Z.ltb_ge in E].
  all: split; [intros H; lia|].
  all: split; [intros H; lia|].
  all: split; [reflexivity|].
  all: split; [lia|].
  all: split; [lia|reflexivity].
Qed.

Lemma water_spec_witness :
  growth_stage (water (mkdate 2024 3 3)
                  (mkPlantState (mkdate 2024 3 1) 2 1 [])) = 3
  /\ growth_stage (water (mkdate 2024 3 3)
                     (mkPlantState (mkdate 2024 3 1) 3 9 [])) = 3.
Proof.
  split.
  - destruct (water_spec (mkdate 2024 3 3)
                (mkPlantState (mkdate 2024 3 1) 2 1 [])) as [H _].
    apply H. simpl. lia.
  - destruct (water_spec (mkdate 2024 3 3)
                (mkPlantState (mkdate 2024 3 1) 3 9 [])) as (_ & H & _).
    apply H. reflexivity.
Defined.

(** Shared steps: what one call does to the two counters. *)
Lemma advance_days_stage (today : date) (days : Z) (s : PlantState) :
  stage_in_range s -> stage_in_range (advance_days today days s).
Proof.
  unfold stage_in_range, advance_days. rewrite MAX_STAGE_INDEX_eq.
  destruct (days <=? 0) eqn:E; simpl; [tauto|].
  apply Z.leb_gt in E. lia.
Qed.

Lemma water_stage (today : date) (s : PlantState) :
  stage_in_range s -> stage_in_range (water today s).
Proof.
  unfold stage_in_range, water. rewrite MAX_STAGE_INDEX_eq. simpl.
  destruct (growth_stage s <? 3) eqn:E;
    [apply Z.ltb_lt in E | apply Z.ltb_ge in E]; lia.
Qed.

Lemma apply_op_day_count (o : op) (s : PlantState) :
  day_count s <= day_count (apply_op s o).
Proof.
  destruct o as [today days|today]; simpl.
  - unfold advance_days. destruct (days <=? 0) eqn:E; simpl; [lia|].
    apply Z.leb_gt in E. lia.
  - unfold water. simpl. lia.
Qed.

Lemma load_stage (today : date) (w w' : world) (s : PlantState) :
  load today w = (Ok s, w') -> stage_in_range s.
Proof.
  intros H. unfold stage_in_range.
  destruct (load_inv _ _ _ _ H) as [(_ & E & _)|(raw & _ & E & _)].
  - subst s. simpl. lia.
  - destruct (load_raw_inv _ _ _ E) as (d & gs & dc & _ & _ & _ & Es).
    subst s. simpl. lia.
Qed.

Lemma apply_ops_stage (ops : list op) (s : PlantState) :
  stage_in_range s -> stage_in_range (apply_ops ops s).
Proof.
  unfold apply_ops. revert s.
  induction ops as [|o ops IH]; intros s H; simpl; [exact H|].
  apply IH. destruct o as [today days|today]; simpl.
  - apply advance_days_stage. exact H.
  - apply water_stage. exact H.
Qed.

(** C3. [0 <= growth_stage <= 3] holds for the state [load] returns
    (whatever the record held), is preserved by [advance_days(days)] for
    every integer [days] and by [water()], and so holds after any sequence of
    these calls on a loaded state; a stored integer stage [g] is loaded as
    [max(0, min(g, 3))]. *)
Theorem growth_stage_in_range :
  (forall today w s w', load today w = (Ok s, w') -> stage_in_range s)
  /\ (forall today days s,
         stage_in_range s -> stage_in_range (advance_days today days s))
  /\ (forall today s, stage_in_range s -> stage_in_range (water today s))
  /\ (forall today w s w' ops,
         load today w = (Ok s, w') -> stage_in_range (apply_ops ops s))
  /\ (forall today d out g s w',
         dict_get d "growth_stage" = Some (JInt g) ->
         load today (mkworld (Content (JObject d)) out) = (Ok s, w') ->
         growth_stage s = Z.max 0 (Z.min g 3)).
Proof.
  split; [|split; [|split; [|split]]].
  - intros today w s w' H. exact (load_stage _ _ _ _ H).
  - exact advance_days_stage.
  - exact water_stage.
  - intros today w s w' ops H. apply apply_ops_stage.
    exact (load_stage _ _ _ _ H).
  - intros today d out g s w' Hg H.
    destruct (load_inv _ _ _ _ H) as [([E|E] & _)|(raw & Ef & E & _)];
      try discriminate E.
    simpl in Ef. inversion Ef; subst raw.
    destruct (load_raw_inv _ _ _ E) as (d' & gs & dc & Er & Egs & _ & Es).
    inversion Er; subst d'.
    unfold dict_get_default in Egs. rewrite Hg in Egs. simpl in Egs.
    inversion Egs; subst gs. subst s. reflexivity.
Qed.

Lemma growth_stage_in_range_witness :
  stage_in_range
    (mkPlantState (mkdate 2024 3 3) 3 43 [("nick", JString "fern")])
  /\ stage_in_range
       (advance_days (mkdate 2024 3 3) 7
          (mkPlantState (mkdate 2024 3 1) 2 4 []))
  /\ stage_in_range
       (water (mkdate 2024 3 3) (mkPlantState (mkdate 2024 3 1) 3 4 []))
  /\ stage_in_range
       (apply_ops [OpWater (mkdate 2024 3 3); OpAdvance (mkdate 2024 3 5) 2]
          (mkPlantState (mkdate 2024 3 3) 3 43 [("nick", JString "fern")]))
  /\ growth_stage
       (mkPlantState (mkdate 2024 3 3) 3 43 [("nick", JString "fern")])
     = Z.max 0 (Z.min 42 3).
Proof.
  destruct growth_stage_in_range as (Hload & Hadv & Hwater & Hops & Hclamp).
  pose (w := mkworld (Content (JObject [("growth_stage", JInt 42);
                                        ("nick", JString "fern")])) []).
  assert (Hw : load (mkdate 2024 3 3) w =
               (Ok (mkPlantState (mkdate 2024 3 3) 3 43
                      [("nick", JString "fern")]), w))
    by reflexivity.
  split; [|split; [|split; [|split]]].
  - exact (Hload _ _ _ _ Hw).
  - apply Hadv. unfold stage_in_range. simpl. lia.
  - apply Hwater. unfold stage_in_range. simpl. lia.
  - exact (Hops _ _ _ _ _ Hw).
  - apply (Hclamp (mkdate 2024 3 3)
             [("growth_stage", JInt 42); ("nick", JString "fern")] [] 42 _ w).
    + reflexivity.
    + exact Hw.
Defined.

(** C9. From a state with [day_count >= 1], after any sequence of
    [advance_days(days)] calls (any integers [days]) and [water()] calls the
    [day_count] is at least the initial one, and at least 1. *)
Theorem day_count_never_decreases (ops : list op) (s : PlantState) :
  1 <= day_count s ->
  day_count s <= day_count (apply_ops ops s)
  /\ 1 <= day_count (apply_ops ops s).
Proof.
  intros H1.
  assert (Hmono : day_count s <= day_count (apply_ops ops s)).
  { unfold apply_ops. clear H1. revert s.
    induction ops as [|o ops IH]; intros s; simpl; [lia|].
    pose proof (apply_op_day_count o s).
    pose proof (IH (apply_op s o)). lia. }
  split; lia.
Qed.

Lemma day_count_never_decreases_witness :
  2 <= day_count
         (apply_ops [OpAdvance (mkdate 2024 3 3) (-4);
                     OpWater (mkdate 2024 3 3);
                     OpAdvance (mkdate 2024 3 9) 6]
            (mkPlantState (mkdate 2024 3 1) 3 2 []))
  /\ 1 <= day_count
            (apply_ops [OpAdvance (mkdate 2024 3 3) (-4);
                        OpWater (mkdate 2024 3 3);
                        OpAdvance (mkdate 2024 3 9) 6]
               (mkPlantState (mkdate 2024 3 1) 3 2 [])).
Proof.
  apply (day_count_never_decreases
           [OpAdvance (mkdate 2024 3 3) (-4);
            OpWater (mkdate 2024 3 3);
            OpAdvance (mkdate 2024 3 9) 6]
           (mkPlantState (mkdate 2024 3 1) 3 2 [])).
  simpl. lia.
Defined.

(** ** The response *)

(** C8. For a state with [growth_stage] in [0,3] and any integer
    [days_idle], [build_response] returns, without touching the world or the
    state, exactly the payload whose [stage] is the name at that index of
    [STAGE_NAMES], [stage_index] the stage, [day] the day count, [image] the
    string "assets/plant_<stage>.png", [is_wilted] true iff [days_idle > 3],
    and [days_idle] the input. *)
Theorem build_response_spec (s : PlantState) (days_idle : Z) (w : world) :
  stage_in_range s ->
  exists (stage : string) (wilted : bool),
    nth_error STAGE_NAMES (Z.to_nat (growth_stage s)) = Some stage
    /\ (wilted = true <-> days_idle > 3)
    /\ build_response s days_idle =
       Ok [("stage", JString stage);
           ("stage_index", JInt (growth_stage s));
           ("day", JInt (day_count s));
           ("image", JString ("assets/plant_" ++ stage ++ ".png")%string);
           ("is_wilted", JBool wilted);
           ("days_idle", JInt days_idle)]
    /\ lift (build_response s days_idle) w = (build_response s days_idle, w).
Proof.
  unfold stage_in_range. intros H.
  assert (C : growth_stage s = 0 \/ growth_stage s = 1
              \/ growth_stage s = 2 \/ growth_stage s = 3) by lia.
  assert (W : (3 <? days_idle) = true <-> days_idle > 3)
    by (rewrite Z.ltb_lt; lia).
  unfold build_response.
  destruct C as [C|[C|[C|C]]]; rewrite C; simpl.
  - exists "seed", (3 <? days_idle). auto.
  - exists "sprout", (3 <? days_idle). auto.
  - exists "leaf", (3 <? days_idle). auto.
  - exists "bloom", (3 <? days_idle). auto.
Qed.

Lemma build_response_spec_witness :
  exists (stage : string) (wilted : bool),
    nth_error STAGE_NAMES 2%nat = Some stage
    /\ (wilted = true <-> 4 > 3)
    /\ build_response (mkPlantState (mkdate 2024 3 3) 2 7 []) 4 =
       Ok [("stage", JString stage);
           ("stage_index", JInt 2);
           ("day", JInt 7);
           ("image", JString ("assets/plant_" ++ stage ++ ".png")%string);
           ("is_wilted", JBool wilted);
           ("days_idle", JInt 4)]
    /\ lift (build_response (mkPlantState (mkdate 2024 3 3) 2 7 []) 4)
         (mkworld Missing [])
       = (build_response (mkPlantState (mkdate 2024 3 3) 2 7 []) 4,
          mkworld Missing []).
Proof.
  apply (build_response_spec (mkPlantState (mkdate 2024 3 3) 2 7 []) 4
           (mkworld Missing [])).
  unfold stage_in_range. simpl. lia.
Defined.

(** ** What [save] writes *)


Lemma save_written (s : PlantState) (w w1 : world) :
  save s w = (Ok tt, w1) ->
  w1 = mkworld (Content (JObject (payload s))) (stdout w).
Proof.
  pose proof (save_cases s w) as H.
  destruct (ints_fit (JObject (payload s))); rewrite H; intros E;
    inversion E; reflexivity.
Qed.

Lemma known_items_own (s : PlantState) : holds_own_values s (known_items s).
Proof. repeat split. Qed.

Lemma payload_holds_own (s : PlantState) :
  (forall k, In k known_keys -> ~ In k (keys (extra s))) ->
  holds_own_values s (payload s).
Proof.
  intros H. unfold holds_own_values.
  rewrite !payload_get_own by (apply H; simpl; auto).
  apply known_items_own.
Qed.




(** C10. The [extra] of a state returned by [load] holds none of the three
    known keys; [advance_days] and [water] leave [extra] as it is; so after
    any sequence of them on a loaded state the payload [save] builds holds
    the state's own values under the three known keys, and that payload is
    what the file holds whenever [save] returns. *)
Theorem loaded_extra_never_collides
  (today : date) (w w' : world) (s : PlantState) (ops : list op) :
  load today w = (Ok s, w') ->
  (forall k, In k known_keys -> ~ In k (keys (extra s)))
  /\ extra (apply_ops ops s) = extra s
  /\ holds_own_values (apply_ops ops s) (payload (apply_ops ops s))
  /\ (forall w0 w1,
         save (apply_ops ops s) w0 = (Ok tt, w1) ->
         data_file w1 = Content (JObject (payload (apply_ops ops s)))).
Proof.
  intros H.
  assert (Hfree : forall k, In k known_keys -> ~ In k (keys (extra s))).
  { intros k Hk Hin. apply is_known_iff in Hk.
    rewrite (load_extra_unknown _ _ _ _ H k Hin) in Hk. discriminate. }
  split; [exact Hfree|]. split; [apply apply_ops_extra|]. split.
  - apply payload_holds_own. rewrite apply_ops_extra. exact Hfree.
  - intros w0 w1 Hsave. rewrite (save_written _ _ _ Hsave). reflexivity.
Qed.

Lemma loaded_extra_never_collides_witness :
  extra (apply_ops [OpWater (mkdate 2024 3 3)]
           (mkPlantState (mkdate 2024 3 3) 3 43 [("nick", JString "fern")]))
  = [("nick", JString "fern")].
Proof.
  apply (loaded_extra_never_collides (mkdate 2024 3 3)
           (mkworld (Content (JObject [("growth_stage", JInt 42);
                                       ("nick", JString "fern")])) [])
           (mkworld (Content (JObject [("growth_stage", JInt 42);
                                       ("nick", JString "fern")])) [])
           (mkPlantState (mkdate 2024 3 3) 3 43 [("nick", JString "fern")])
           [OpWater (mkdate 2024 3 3)]).
  reflexivity.
Defined.

(** ** Malformed fields *)

(** C2, at a failing input. The record [{"last_opened": "2024-03-01",
    "growth_stage": "abc", "day_count": 1}] parses as JSON, yet [load] raises
    the [ValueError] of [int("abc")]: nothing is written or printed and the
    run ends with status 1. A [null] day count raises [TypeError] the same
    way. The malformed [last_opened] of the third record, in contrast, is
    replaced by today's date. *)
Theorem load_malformed_field_raises (today : date) (out : list json) :
  let bad_stage :=
    mkworld (Content (JObject [("last_opened", JString "2024-03-01");
                               ("growth_stage", JString "abc");
                               ("day_count", JInt 1)])) out in
  let bad_count :=
    mkworld (Content (JObject [("last_opened", JString "2024-03-01");
                               ("growth_stage", JInt 1);
                               ("day_count", JNull)])) out in
  let bad_date :=
    mkworld (Content (JObject [("last_opened", JString "yesterday");
                               ("growth_stage", JInt 1);
                               ("day_count", JInt 2)])) out in
  load today bad_stage = (Raise ValueError, bad_stage)
  /\ run false today bad_stage = (1, bad_stage)
  /\ load today bad_count = (Raise TypeError, bad_count)
  /\ run false today bad_count = (1, bad_count)
  /\ load today bad_date = (Ok (mkPlantState today 1 2 []), bad_date).
Proof. repeat split. Qed.

(** ** Saving and loading again *)

Lemma filter_all_true {A : Type} (p : A -> bool) (l : list A) :
  (forall x, In x l -> p x = true) -> filter p l = l.
Proof.
  induction l as [|a l IH]; simpl; intros H; [reflexivity|].
  rewrite (H a) by (left; reflexivity).
  f_equal. apply IH. intros x Hx. apply H. right. exact Hx.
Qed.

Lemma payload_fresh (s : PlantState) :
  wf_dict (extra s) ->
  (forall k, In k (keys (extra s)) -> is_known k = false) ->
  payload s = known_items s ++ extra s.
Proof.
  intros Hwf Hunk. unfold payload. apply dict_update_fresh; [exact Hwf|].
  intros k Hin Hk.
  assert (Hkn : is_known k = true) by (apply is_known_iff; exact Hk).
  rewrite (Hunk k Hin) in Hkn. discriminate.
Qed.

(** Loading the record that [save] wrote for [s] gives [s] back, when [s]
    is a state [load] could have produced. *)
Lemma load_raw_payload (today : date) (s : PlantState) :
  valid_date (last_opened s) ->
  stage_in_range s ->
  1 <= day_count s ->
  wf_dict (extra s) ->
  (forall k, In k (keys (extra s)) -> is_known k = false) ->
  load_raw today (JObject (payload s)) = Ok s.
Proof.
  intros Hdate Hstage Hday Hwf Hunk.
  rewrite (payload_fresh s Hwf Hunk).
  unfold load_raw, loaded_date, as_dict, rbind, known_items,
    dict_get_default.
  cbn [app dict_get String.eqb Ascii.eqb Bool.eqb].
  cbn [py_int]. unfold strptime.
  rewrite (strptime_ymd_isoformat _ Hdate).
  change (filter (fun kv : string * json => negb (is_known (fst kv)))
            (("last_opened", JString (isoformat (last_opened s)))
             :: ("growth_stage", JInt (growth_stage s))
             :: ("day_count", JInt (day_count s)) :: extra s))
    with (filter (fun kv : string * json => negb (is_known (fst kv)))
            (extra s)).
  rewrite filter_all_true.
  - rewrite MAX_STAGE_INDEX_eq. unfold stage_in_range in Hstage.
    rewrite Z.min_l, Z.max_r, Z.max_r by lia.
    destruct s; reflexivity.
  - intros [k v] Hin. simpl. apply negb_true_iff. apply Hunk.
    unfold keys. apply in_map_iff. exists (k, v). auto.
Qed.

(** What [load] guarantees about the state it returns. *)
Lemma load_state_wf (today : date) (w w1 : world) (s : PlantState) :
  wf_file (data_file w) ->
  valid_date today ->
  load today w = (Ok s, w1) ->
  valid_date (last_opened s) /\ 1 <= day_count s /\ wf_dict (extra s)
  /\ (forall k, In k (keys (extra s)) -> is_known k = false).
Proof.
  intros Hwf Htoday Hload.
  split; [|split; [|split]];
    try exact (load_extra_unknown _ _ _ _ Hload);
    destruct (load_inv _ _ _ _ Hload) as [(_ & E & _)|(raw & Ef & E & _)];
    try (subst s; simpl; first [exact Htoday | lia | constructor]);
    destruct (load_raw_inv _ _ _ E) as (d & gs & dc & Er & _ & _ & Es);
    subst s raw; simpl.
  - apply loaded_date_valid. exact Htoday.
  - lia.
  - rewrite Ef in Hwf. apply filter_wf. exact Hwf.
Qed.




(** ** Shared facts about a run *)

Lemma days_between_same (d : date) : days_between d d = 0.
Proof. unfold days_between. lia. Qed.

Lemma build_response_ok (s : PlantState) (days_idle : Z) :
  stage_in_range s ->
  exists stage,
    In stage STAGE_NAMES
    /\ build_response s days_idle = Ok (response_of stage s days_idle).
Proof.
  unfold stage_in_range. intros H.
  assert (C : growth_stage s = 0 \/ growth_stage s = 1
              \/ growth_stage s = 2 \/ growth_stage s = 3) by lia.
  unfold build_response, response_of.
  destruct C as [C|[C|[C|C]]]; rewrite C; simpl.
  - exists "seed". auto.
  - exists "sprout". auto.
  - exists "leaf". auto.
  - exists "bloom". auto 6.
Qed.

Lemma run_state_stage (b : bool) (today : date) (s : PlantState) :
  stage_in_range s -> stage_in_range (run_state b today s).
Proof.
  intros H. unfold run_state.
  assert (H1 : stage_in_range
                 (if 0 <? days_between today (last_opened s)
                  then advance_days today
                         (days_between today (last_opened s)) s
                  else s)).
  { destruct (0 <? days_between today (last_opened s));
      [apply advance_days_stage|]; exact H. }
  destruct b; [apply water_stage|]; exact H1.
Qed.

Lemma run_state_extra (b : bool) (today : date) (s : PlantState) :
  extra (run_state b today s) = extra s.
Proof.
  unfold run_state, advance_days.
  destruct b, (0 <? days_between today (last_opened s)),
    (days_between today (last_opened s) <=? 0); reflexivity.
Qed.

(** [load] never prints, and writes the file only to create the default
    record. *)
Lemma load_stdout (today : date) (w w' : world) (r : result PlantState) :
  load today w = (r, w') -> stdout w' = stdout w.
Proof.
  unfold load, bind, read_file, save, write_file, ret, raise, lift.
  destruct (data_file w); intros H; inversion H; reflexivity.
Qed.

Lemma load_unchanged_on_content
  (today : date) (w w' : world) (r : result PlantState) (raw : json) :
  data_file w = Content raw -> load today w = (r, w') ->
  w' = w /\ r = load_raw today raw.
Proof.
  unfold load, bind, read_file, lift. intros E. rewrite E.
  intros H; inversion H; auto.
Qed.

Lemma load_raise_unchanged
  (today : date) (w w' : world) (e : exn) :
  load today w = (Raise e, w') -> w' = w.
Proof.
  unfold load, bind, read_file, ret, raise, lift.
  destruct (data_file w);
    try rewrite (save_ok _ _ (default_state_fits today));
    intros H; inversion H; reflexivity.
Qed.

(** After a successful [load] the run succeeds when [save] does. *)
Lemma run_after_load
  (b : bool) (today : date) (w w1 : world) (s : PlantState) (resp : dict) :
  load today w = (Ok s, w1) ->
  build_response (run_state b today s) (days_between today (last_opened s))
    = Ok resp ->
  ints_fit (JObject (payload (run_state b today s))) = true ->
  run b today w =
  (0, mkworld (Content (JObject (payload (run_state b today s))))
        (stdout w ++ [JObject resp])).
Proof.
  intros Hload Hresp Hfit.
  rewrite <- (load_stdout _ _ _ _ Hload).
  unfold run, main, bind. rewrite Hload.
  unfold run_state in Hresp, Hfit |- *.
  rewrite (save_ok _ w1 Hfit).
  unfold lift, print, ret.
  rewrite Hresp. reflexivity.
Qed.

(** When [save] raises, the run ends with status 1 in the world [load]
    left. *)
Lemma run_save_raises
  (b : bool) (today : date) (w w1 : world) (s : PlantState) :
  load today w = (Ok s, w1) ->
  ints_fit (JObject (payload (run_state b today s))) = false ->
  run b today w = (1, w1).
Proof.
  intros Hload Hfit.
  unfold run, main, bind. rewrite Hload.
  unfold run_state in Hfit |- *.
  rewrite (save_raises _ w1 Hfit). reflexivity.
Qed.

Lemma run_cases
  (b : bool) (today : date) (w w1 : world) (s : PlantState) :
  load today w = (Ok s, w1) ->
  exists stage,
    In stage STAGE_NAMES
    /\ if ints_fit (JObject (payload (run_state b today s)))
       then run b today w =
            (0, mkworld (Content (JObject (payload (run_state b today s))))
                  (stdout w ++
                   [JObject (response_of stage (run_state b today s)
                               (days_between today (last_opened s)))]))
       else run b today w = (1, w1).
Proof.
  intros Hload.
  pose proof (run_state_stage b today s (load_stage _ _ _ _ Hload)) as Hst.
  destruct (build_response_ok (run_state b today s)
              (days_between today (last_opened s)) Hst) as (stage & Hin & Hr).
  exists stage. split; [exact Hin|].
  destruct (ints_fit (JObject (payload (run_state b today s)))) eqn:Hfit.
  - exact (run_after_load b today w w1 s _ Hload Hr Hfit).
  - exact (run_save_raises b today w w1 s Hload Hfit).
Qed.

Lemma run_load_raises
  (b : bool) (today : date) (w w1 : world) (e : exn) :
  load today w = (Raise e, w1) -> run b today w = (1, w).
Proof.
  intros Hload.
  pose proof (load_raise_unchanged _ _ _ _ Hload) as E. subst w1.
  unfold run, main, bind. rewrite Hload. reflexivity.
Qed.

(** ** A whole run *)




(** * Further properties of the script *)

(** ** Runs *)

(** X1. First run: with the record file missing or unreadable, a run
    creates the record of a fresh plant (today, stage 0, day 1; with the
    water flag stage 1, day 2), prints the matching response with
    [days_idle] 0 and [is_wilted] false, and ends with status 0. *)
Theorem first_run_creates_default
  (b : bool) (today : date) (out : list json) (f : file) :
  f = Missing \/ f = Unreadable ->
  run b today (mkworld f out) =
  (0, mkworld
        (Content (JObject
           [("last_opened", JString (isoformat today));
            ("growth_stage", JInt (if b then 1 else 0));
            ("day_count", JInt (if b then 2 else 1))]))
        (out ++ [JObject
           [("stage", JString (if b then "sprout" else "seed"));
            ("stage_index", JInt (if b then 1 else 0));
            ("day", JInt (if b then 2 else 1));
            ("image", JString (if b then "assets/plant_sprout.png"
                               else "assets/plant_seed.png"));
            ("is_wilted", JBool false);
            ("days_idle", JInt 0)]])).
Proof.
  intros Hf.
  assert (Hload : load today (mkworld f out) =
                  (Ok (default_state today),
                   mkworld (Content (JObject (payload (default_state today))))
                     out))
    by (destruct Hf; subst f; unfold load, bind, read_file, ret;
        cbn [data_file];
        rewrite (save_ok _ _ (default_state_fits today)); reflexivity).
  assert (Hst : run_state b today (default_state today) =
                mkPlantState today (if b then 1 else 0) (if b then 2 else 1) []).
  { unfold run_state. cbn [default_state last_opened].
    rewrite days_between_same. destruct b; reflexivity. }
  rewrite (run_after_load b today _ _ _
             [("stage", JString (if b then "sprout" else "seed"));
              ("stage_index", JInt (if b then 1 else 0));
              ("day", JInt (if b then 2 else 1));
              ("image", JString (if b then "assets/plant_sprout.png"
                                 else "assets/plant_seed.png"));
              ("is_wilted", JBool false);
              ("days_idle", JInt 0)] Hload).
  - rewrite Hst. reflexivity.
  - rewrite Hst. cbn [default_state last_opened].
    rewrite days_between_same. destruct b; reflexivity.
  - rewrite Hst. apply payload_fits; try reflexivity;
      apply int_fits_small; destruct b; simpl; lia.
Qed.

Lemma first_run_creates_default_witness :
  run true (mkdate 2024 3 3) (mkworld Missing []) =
  (0, mkworld
        (Content (JObject
           [("last_opened", JString "2024-03-03");
            ("growth_stage", JInt 1);
            ("day_count", JInt 2)]))
        [JObject
           [("stage", JString "sprout");
            ("stage_index", JInt 1);
            ("day", JInt 2);
            ("image", JString "assets/plant_sprout.png");
            ("is_wilted", JBool false);
            ("days_idle", JInt 0)]]).
Proof.
  apply (first_run_creates_default true (mkdate 2024 3 3) [] Missing).
  left. reflexivity.
Defined.



(** X3. When [load] raises, the run ends with status 1 and has done
    nothing: the record file and standard output are exactly as before. *)
Theorem run_fails_without_effect
  (b : bool) (today : date) (w w1 : world) (e : exn) :
  load today w = (Raise e, w1) ->
  w1 = w /\ run b today w = (1, w).
Proof.
  intros Hload. split.
  - exact (load_raise_unchanged _ _ _ _ Hload).
  - exact (run_load_raises b today w w1 e Hload).
Qed.

Lemma run_fails_without_effect_witness :
  mkworld (Content (JArray [])) [JNull] = mkworld (Content (JArray [])) [JNull]
  /\ run true (mkdate 2024 3 3) (mkworld (Content (JArray [])) [JNull])
     = (1, mkworld (Content (JArray [])) [JNull]).
Proof.
  apply (run_fails_without_effect true (mkdate 2024 3 3)
           (mkworld (Content (JArray [])) [JNull])
           (mkworld (Content (JArray [])) [JNull]) AttributeError).
  reflexivity.
Defined.

(** ** Loading *)

(** X4. [load] never prints. It leaves the record file as it is whenever
    the file holds a JSON value, whether it returns or raises; it writes only
    when the file is missing or unreadable, and then writes the default
    record of today. *)
Theorem load_writes_only_default
  (today : date) (w w' : world) (r : result PlantState) :
  load today w = (r, w') ->
  stdout w' = stdout w
  /\ (data_file w' = data_file w
      \/ ((data_file w = Missing \/ data_file w = Unreadable)
          /\ r = Ok (default_state today)
          /\ data_file w' =
             Content (JObject [("last_opened", JString (isoformat today));
                               ("growth_stage", JInt 0);
                               ("day_count", JInt 1)]))).
Proof.
  intros H. split; [exact (load_stdout _ _ _ _ H)|].
  revert H.
  unfold load, bind, read_file, ret, raise, lift.
  destruct (data_file w) eqn:E;
    try rewrite (save_ok _ _ (default_state_fits today));
    intros H; inversion H; subst; simpl.
  - right. auto.
  - right. auto.
  - left. exact E.
  - left. exact E.
  - left. exact E.
Qed.

Lemma load_writes_only_default_witness :
  stdout (mkworld (Content (JObject [("day_count", JNull)])) [JNull])
  = stdout (mkworld (Content (JObject [("day_count", JNull)])) [JNull])
  /\ (data_file (mkworld (Content (JObject [("day_count", JNull)])) [JNull])
      = data_file (mkworld (Content (JObject [("day_count", JNull)])) [JNull])
      \/ ((data_file (mkworld (Content (JObject [("day_count", JNull)]))
                        [JNull]) = Missing
           \/ data_file (mkworld (Content (JObject [("day_count", JNull)]))
                           [JNull]) = Unreadable)
          /\ Raise TypeError = Ok (default_state (mkdate 2024 3 3))
          /\ data_file (mkworld (Content (JObject [("day_count", JNull)]))
                          [JNull]) =
             Content (JObject
                        [("last_opened", JString (isoformat (mkdate 2024 3 3)));
                         ("growth_stage", JInt 0);
                         ("day_count", JInt 1)]))).
Proof.
  apply (load_writes_only_default (mkdate 2024 3 3)
           (mkworld (Content (JObject [("day_count", JNull)])) [JNull])
           (mkworld (Content (JObject [("day_count", JNull)])) [JNull])
           (Raise TypeError)).
  reflexivity.
Defined.

(** X5. A record file that holds JSON other than an object (a list, a
    number, a string, [null], ...) is not healed: [raw.get] raises
    [AttributeError], and the run ends with status 1 leaving the file as it
    is. *)
Theorem load_non_object_raises
  (b : bool) (today : date) (raw : json) (out : list json) :
  (forall d, raw <> JObject d) ->
  load today (mkworld (Content raw) out)
  = (Raise AttributeError, mkworld (Content raw) out)
  /\ run b today (mkworld (Content raw) out)
     = (1, mkworld (Content raw) out).
Proof.
  intros Hraw.
  assert (Hload : load today (mkworld (Content raw) out)
                  = (Raise AttributeError, mkworld (Content raw) out)).
  { unfold load, bind, read_file, lift. simpl.
    destruct raw; try reflexivity. exfalso. exact (Hraw d eq_refl). }
  split; [exact Hload|].
  unfold run, main, bind. rewrite Hload. reflexivity.
Qed.

Lemma load_non_object_raises_witness :
  load (mkdate 2024 3 3) (mkworld (Content (JArray [JInt 1])) [])
  = (Raise AttributeError, mkworld (Content (JArray [JInt 1])) [])
  /\ run false (mkdate 2024 3 3) (mkworld (Content (JArray [JInt 1])) [])
     = (1, mkworld (Content (JArray [JInt 1])) []).
Proof.
  apply (load_non_object_raises false (mkdate 2024 3 3) (JArray [JInt 1]) []).
  intros d H. discriminate H.
Defined.

(** X6. A record object whose [growth_stage] and [day_count] are each
    absent or a JSON integer always loads, whatever [last_opened] and the
    other keys hold: the file stays as it is, the stage is clamped into
    [0,3], the day count raised to at least 1, and [last_opened] is the
    stored string parsed as a date, or today's date exactly when the key is
    missing, its value is not a string, or the string is not a date. *)
Theorem load_integer_fields_succeeds
  (today : date) (d : dict) (out : list json) :
  (forall v, dict_get d "growth_stage" = Some v -> exists n, v = JInt n) ->
  (forall v, dict_get d "day_count" = Some v -> exists n, v = JInt n) ->
  exists s,
    load today (mkworld (Content (JObject d)) out)
    = (Ok s, mkworld (Content (JObject d)) out)
    /\ stage_in_range s /\ 1 <= day_count s
    /\ last_opened s =
       match dict_get d "last_opened" with
       | Some (JString str) =>
           match strptime_ymd str with
           | Some lo => lo
           | None => today
           end
       | _ => today
       end.
Proof.
  intros Hgs Hdc.
  assert (Egs : exists g,
             py_int (dict_get_default d "growth_stage" (JInt 0)) = Ok g).
  { unfold dict_get_default.
    destruct (dict_get d "growth_stage") as [v|] eqn:E.
    - destruct (Hgs v eq_refl) as [n ->]. exists n. reflexivity.
    - exists 0. reflexivity. }
  destruct Egs as [g Eg].
  assert (Edc : exists c,
             py_int (dict_get_default d "day_count"
                       (JInt (Z.max 1 (g + 1)))) = Ok c).
  { unfold dict_get_default.
    destruct (dict_get d "day_count") as [v|] eqn:E.
    - destruct (Hdc v eq_refl) as [n ->]. exists n. reflexivity.
    - exists (Z.max 1 (g + 1)). reflexivity. }
  destruct Edc as [c Ec].
  exists (mkPlantState (loaded_date today d)
            (Z.max 0 (Z.min g MAX_STAGE_INDEX)) (Z.max 1 c)
            (filter (fun kv => negb (is_known (fst kv))) d)).
  split; [|split; [|split]].
  - unfold load, bind, read_file, lift. cbn [data_file].
    unfold load_raw, as_dict, rbind. rewrite Eg, Ec. reflexivity.
  - unfold stage_in_range. cbn [growth_stage].
    rewrite MAX_STAGE_INDEX_eq. lia.
  - cbn [day_count]. lia.
  - cbn [last_opened]. unfold loaded_date, dict_get_default, strptime.
    destruct (dict_get d "last_opened") as [[| | | |str| |]|];
      try reflexivity.
    destruct (strptime_ymd str); reflexivity.
Qed.

Lemma load_integer_fields_succeeds_witness :
  exists s,
    load (mkdate 2024 3 3)
      (mkworld (Content (JObject [("last_opened", JString "2024-2-7");
                                  ("growth_stage", JInt (-2))])) [])
    = (Ok s, mkworld (Content (JObject [("last_opened", JString "2024-2-7");
                                        ("growth_stage", JInt (-2))])) [])
    /\ stage_in_range s /\ 1 <= day_count s
    /\ last_opened s =
       match dict_get [("last_opened", JString "2024-2-7");
                       ("growth_stage", JInt (-2))] "last_opened" with
       | Some (JString str) =>
           match strptime_ymd str with
           | Some lo => lo
           | None => mkdate 2024 3 3
           end
       | _ => mkdate 2024 3 3
       end.
Proof.
  apply (load_integer_fields_succeeds (mkdate 2024 3 3)
           [("last_opened", JString "2024-2-7"); ("growth_stage", JInt (-2))]
           []).
  - intros v H. simpl in H. inversion H. exists (-2). reflexivity.
  - intros v H. simpl in H. discriminate H.
Defined.

(** ** Unknown fields through a run *)

Lemma dict_get_filter_unknown (d : dict) (k : string) :
  is_known k = false ->
  dict_get (filter (fun kv => negb (is_known (fst kv))) d) k = dict_get d k.
Proof.
  intros Hk. induction d as [|[k' v] d IH]; simpl; [reflexivity|].
  destruct (is_known k') eqn:E; simpl.
  - destruct (String.eqb k k') eqn:Ek; [|exact IH].
    apply String.eqb_eq in Ek. subst k'. rewrite Hk in E. discriminate.
  - rewrite IH. reflexivity.
Qed.

Lemma dict_get_known_items_unknown (s : PlantState) (k : string) :
  is_known k = false -> dict_get (known_items s) k = None.
Proof.
  intros Hk. apply dict_get_None. intros Hin.
  assert (H : is_known k = true) by (apply is_known_iff; exact Hin).
  rewrite Hk in H. discriminate.
Qed.

(** X7. A run that ends with status 0, with or without the water flag,
    has rewritten the record as the three known items of the final state
    followed by every other item of the old record, in the old order: each
    unrecognised key keeps its value. *)
Theorem run_keeps_unknown_fields
  (b : bool) (today : date) (d : dict) (out : list json) :
  wf_dict d ->
  fst (run b today (mkworld (Content (JObject d)) out)) = 0 ->
  exists s p,
    load today (mkworld (Content (JObject d)) out)
    = (Ok s, mkworld (Content (JObject d)) out)
    /\ data_file (snd (run b today (mkworld (Content (JObject d)) out)))
       = Content (JObject p)
    /\ p = known_items (run_state b today s)
           ++ filter (fun kv => negb (is_known (fst kv))) d
    /\ (forall k, is_known k = false -> dict_get p k = dict_get d k).
Proof.
  intros Hwf Hstatus.
  destruct (load today (mkworld (Content (JObject d)) out))
    as [[s|e] w1] eqn:Hload.
  2:{ rewrite (run_load_raises b today _ _ _ Hload) in Hstatus.
      discriminate Hstatus. }
  destruct (load_unchanged_on_content today
              (mkworld (Content (JObject d)) out) w1 (Ok s) (JObject d)
              eq_refl Hload) as [Ew E].
  subst w1.
  assert (Hextra : extra s = filter (fun kv => negb (is_known (fst kv))) d).
  { symmetry in E.
    destruct (load_raw_inv _ _ _ E) as (d' & gs & dc & Er & _ & _ & Es).
    inversion Er; subst d'. subst s. reflexivity. }
  destruct (run_cases b today _ _ s Hload) as (stage & _ & Hrun).
  destruct (ints_fit (JObject (payload (run_state b today s)))) eqn:Hfit.
  2:{ rewrite Hrun in Hstatus. discriminate Hstatus. }
  exists s, (known_items (run_state b today s)
             ++ filter (fun kv => negb (is_known (fst kv))) d).
  split; [reflexivity|]. split; [|split; [reflexivity|]].
  - rewrite Hrun. cbn [snd data_file]. rewrite payload_fresh.
    + rewrite run_state_extra, Hextra. reflexivity.
    + rewrite run_state_extra, Hextra. apply filter_wf. exact Hwf.
    + rewrite run_state_extra.
      exact (load_extra_unknown _ _ _ _ Hload).
  - intros k Hk.
    rewrite dict_get_app, dict_get_known_items_unknown by exact Hk.
    apply dict_get_filter_unknown. exact Hk.
Qed.

Lemma run_keeps_unknown_fields_witness :
  exists s p,
    load (mkdate 2024 3 3)
      (mkworld (Content (JObject [("nick", JString "fern");
                                  ("growth_stage", JInt 1);
                                  ("pot", JArray [JInt 2])])) [])
    = (Ok s,
       mkworld (Content (JObject [("nick", JString "fern");
                                  ("growth_stage", JInt 1);
                                  ("pot", JArray [JInt 2])])) [])
    /\ data_file
         (snd (run true (mkdate 2024 3 3)
                 (mkworld (Content (JObject [("nick", JString "fern");
                                             ("growth_stage", JInt 1);
                                             ("pot", JArray [JInt 2])])) [])))
       = Content (JObject p)
    /\ p = known_items (run_state true (mkdate 2024 3 3) s)
           ++ filter (fun kv => negb (is_known (fst kv)))
                [("nick", JString "fern");
                 ("growth_stage", JInt 1);
                 ("pot", JArray [JInt 2])]
    /\ (forall k, is_known k = false ->
          dict_get p k =
          dict_get [("nick", JString "fern");
                    ("growth_stage", JInt 1);
                    ("pot", JArray [JInt 2])] k).
Proof.
  apply (run_keeps_unknown_fields true (mkdate 2024 3 3)
           [("nick", JString "fern");
            ("growth_stage", JInt 1);
            ("pot", JArray [JInt 2])] []).
  - unfold wf_dict. simpl. repeat constructor; simpl; intuition discriminate.
  - reflexivity.
Defined.

(** ** Running again on the same day *)

Lemma advance_days_date (today : date) (days : Z) (s : PlantState) :
  0 < days -> last_opened (advance_days today days s) = today.
Proof.
  intros H. unfold advance_days.
  replace (days <=? 0) with false by (symmetry; apply Z.leb_gt; exact H).
  reflexivity.
Qed.

Lemma run_state_again (today : date) (s : PlantState) :
  run_state false today (run_state false today s) = run_state false today s.
Proof.
  unfold run_state.
  destruct (0 <? days_between today (last_opened s)) eqn:E.
  - apply Z.ltb_lt in E.
    rewrite (advance_days_date today _ s E), days_between_same.
    reflexivity.
  - rewrite E. reflexivity.
Qed.

Lemma run_state_day_count (today : date) (s : PlantState) :
  day_count s <= day_count (run_state false today s).
Proof.
  unfold run_state, advance_days.
  destruct (0 <? days_between today (last_opened s)) eqn:E; [|lia].
  apply Z.ltb_lt in E.
  destruct (days_between today (last_opened s) <=? 0); simpl; lia.
Qed.

Lemma run_state_date (today : date) (s : PlantState) :
  valid_date today -> valid_date (last_opened s) ->
  valid_date (last_opened (run_state false today s)).
Proof.
  intros Ht Hs. unfold run_state, advance_days.
  destruct (0 <? days_between today (last_opened s)); [|exact Hs].
  destruct (days_between today (last_opened s) <=? 0); [exact Hs|exact Ht].
Qed.

(** X8. Without the water flag a second run on the same day changes
    nothing more: it ends with the same status and leaves the record file
    exactly as the first run left it (the elapsed days are counted once). *)
Theorem run_again_same_day (today : date) (w : world) :
  wf_file (data_file w) ->
  valid_date today ->
  fst (run false today (snd (run false today w))) = fst (run false today w)
  /\ data_file (snd (run false today (snd (run false today w))))
     = data_file (snd (run false today w)).
Proof.
  intros Hwf Htoday.
  destruct (load today w) as [[s|e] w1] eqn:Hload.
  - destruct (run_cases false today _ _ _ Hload) as (stage & _ & Hrun).
    destruct (ints_fit (JObject (payload (run_state false today s))))
      eqn:Hfit.
    + destruct (load_state_wf _ _ _ _ Hwf Htoday Hload)
        as (Hdate & Hday & Hwfe & Hunk).
      pose proof (load_stage _ _ _ _ Hload) as Hstage.
      rewrite Hrun. cbn [fst snd].
      set (w2 := mkworld
                   (Content (JObject (payload (run_state false today s))))
                   (stdout w ++
                    [JObject (response_of stage (run_state false today s)
                                (days_between today (last_opened s)))])).
      assert (Hload2 : load today w2 = (Ok (run_state false today s), w2)).
      { unfold load, bind, read_file, lift. cbn [w2 data_file].
        rewrite load_raw_payload; [reflexivity| | | | |].
        - apply run_state_date; assumption.
        - apply run_state_stage. exact Hstage.
        - pose proof (run_state_day_count today s). lia.
        - rewrite run_state_extra. exact Hwfe.
        - rewrite run_state_extra. exact Hunk. }
      destruct (run_cases false today _ _ _ Hload2) as (stage2 & _ & Hrun2).
      rewrite run_state_again, Hfit in Hrun2.
      rewrite Hrun2. split; reflexivity.
    + assert (Ew1 : w1 = w).
      { destruct (load_inv _ _ _ _ Hload)
          as [(_ & Es & _)|(raw & _ & _ & Ew')]; [|exact Ew'].
        exfalso. subst s.
        assert (Hd : run_state false today (default_state today)
                     = default_state today).
        { unfold run_state. cbn [default_state last_opened].
          rewrite days_between_same. reflexivity. }
        rewrite Hd, default_state_fits in Hfit. discriminate Hfit. }
      subst w1. rewrite Hrun. cbn [fst snd]. rewrite Hrun.
      split; reflexivity.
  - rewrite (run_load_raises false today _ _ _ Hload). cbn [fst snd].
    rewrite (run_load_raises false today _ _ _ Hload). split; reflexivity.
Qed.

Lemma run_again_same_day_witness :
  fst (run false (mkdate 2024 3 3)
         (snd (run false (mkdate 2024 3 3)
                 (mkworld
                    (Content (JObject [("last_opened", JString "2024-03-01");
                                       ("nick", JString "fern")])) []))))
  = fst (run false (mkdate 2024 3 3)
           (mkworld
              (Content (JObject [("last_opened", JString "2024-03-01");
                                 ("nick", JString "fern")])) []))
  /\ data_file
       (snd (run false (mkdate 2024 3 3)
               (snd (run false (mkdate 2024 3 3)
                       (mkworld
                          (Content (JObject
                             [("last_opened", JString "2024-03-01");
                              ("nick", JString "fern")])) [])))))
     = data_file
         (snd (run false (mkdate 2024 3 3)
                 (mkworld
                    (Content (JObject [("last_opened", JString "2024-03-01");
                                       ("nick", JString "fern")])) []))).
Proof.
  apply (run_again_same_day (mkdate 2024 3 3)
           (mkworld
              (Content (JObject [("last_opened", JString "2024-03-01");
                                 ("nick", JString "fern")])) [])).
  - unfold wf_file, wf_dict. simpl.
    repeat constructor; simpl; intuition discriminate.
  - reflexivity.
Defined.



(** ** The two counters under the mutating methods *)

(** X10. From a stage of at most 3 the stage never goes back: after any
    sequence of [advance_days] and [water] calls it is at least the initial
    stage and still at most 3. (Above 3 the bound is needed:
    [advance_days] would cut the stage down to 3.) *)
Theorem growth_stage_never_decreases (ops : list op) (s : PlantState) :
  growth_stage s <= 3 ->
  growth_stage s <= growth_stage (apply_ops ops s) <= 3.
Proof.
  unfold apply_ops. revert s.
  induction ops as [|o ops IH]; intros s H; simpl; [lia|].
  assert (Hstep : growth_stage s <= growth_stage (apply_op s o) <= 3).
  { destruct o as [today days|today]; simpl.
    - unfold advance_days. rewrite MAX_STAGE_INDEX_eq.
      destruct (days <=? 0) eqn:E; simpl; [lia|].
      apply Z.leb_gt in E. lia.
    - unfold water. rewrite MAX_STAGE_INDEX_eq. simpl.
      destruct (growth_stage s <? 3) eqn:E;
        [apply Z.ltb_lt in E | apply Z.ltb_ge in E]; lia. }
  pose proof (IH (apply_op s o) ltac:(lia)). lia.
Qed.

Lemma growth_stage_never_decreases_witness :
  2 <= growth_stage
         (apply_ops [OpAdvance (mkdate 2024 3 3) (-1);
                     OpWater (mkdate 2024 3 3);
                     OpAdvance (mkdate 2024 3 9) 6]
            (mkPlantState (mkdate 2024 3 1) 2 2 [])) <= 3.
Proof.
  apply (growth_stage_never_decreases
           [OpAdvance (mkdate 2024 3 3) (-1);
            OpWater (mkdate 2024 3 3);
            OpAdvance (mkdate 2024 3 9) 6]
           (mkPlantState (mkdate 2024 3 1) 2 2 [])).
  simpl. lia.
Defined.

Lemma apply_op_covers (o : op) (s : PlantState) :
  day_count_covers_stage s -> day_count_covers_stage (apply_op s o).
Proof.
  unfold day_count_covers_stage.
  destruct o as [today days|today]; simpl; intros H.
  - unfold advance_days. rewrite MAX_STAGE_INDEX_eq.
    destruct (days <=? 0) eqn:E; simpl; [exact H|].
    apply Z.leb_gt in E. lia.
  - unfold water. simpl. lia.
Qed.

(** X11. [day_count >= growth_stage + 1] is kept by [advance_days] and by
    [water], and [water] establishes it: after any sequence of calls that
    starts from a state where it holds, or that contains a [water], the day
    count is at least the stage plus 1. *)
Theorem day_count_covers_stage_kept (ops : list op) (s : PlantState) :
  day_count_covers_stage s \/ (exists today, In (OpWater today) ops) ->
  day_count_covers_stage (apply_ops ops s).
Proof.
  unfold apply_ops. revert s.
  induction ops as [|o ops IH]; intros s H; simpl.
  - destruct H as [H|[today []]]. exact H.
  - apply IH. destruct H as [H|[today [H|H]]].
    + left. apply apply_op_covers. exact H.
    + left. subst o. unfold day_count_covers_stage. simpl.
      unfold water. simpl. lia.
    + right. exists today. exact H.
Qed.

Lemma day_count_covers_stage_kept_witness :
  day_count_covers_stage
    (apply_ops [OpWater (mkdate 2024 3 3); OpAdvance (mkdate 2024 3 5) 2]
       (mkPlantState (mkdate 2024 3 1) 2 1 [])).
Proof.
  apply (day_count_covers_stage_kept
           [OpWater (mkdate 2024 3 3); OpAdvance (mkdate 2024 3 5) 2]
           (mkPlantState (mkdate 2024 3 1) 2 1 [])).
  right. exists (mkdate 2024 3 3). simpl. auto.
Defined.

(** X12. [load] gives a day count of at least the stage plus 1 whenever it
    has to choose the day count itself: for a missing or unreadable file and
    for a record without the key ["day_count"]. (A stored day count is only
    raised to 1, not to the stage plus 1.) *)
Theorem load_default_day_count_covers_stage
  (today : date) (w w' : world) (s : PlantState) :
  load today w = (Ok s, w') ->
  (forall d, data_file w = Content (JObject d) ->
             dict_get d "day_count" = None) ->
  day_count_covers_stage s.
Proof.
  intros Hload Hnone. unfold day_count_covers_stage.
  destruct (load_inv _ _ _ _ Hload) as [(_ & E & _)|(raw & Ef & E & _)].
  - subst s. simpl. lia.
  - destruct (load_raw_inv _ _ _ E) as (d & gs & dc & Er & _ & Edc & Es).
    subst raw. unfold dict_get_default in Edc.
    rewrite (Hnone d Ef) in Edc. simpl in Edc.
    inversion Edc; subst dc. subst s. simpl. lia.
Qed.

Lemma load_default_day_count_covers_stage_witness :
  day_count_covers_stage (mkPlantState (mkdate 2024 3 3) 3 43 []).
Proof.
  apply (load_default_day_count_covers_stage (mkdate 2024 3 3)
           (mkworld (Content (JObject [("growth_stage", JInt 42)])) [])
           (mkworld (Content (JObject [("growth_stage", JInt 42)])) [])).
  - reflexivity.
  - intros d H. simpl in H. inversion H. reflexivity.
Defined.

(** X13. Catching up in two steps is catching up in one: for positive
    [a] and [b], [advance_days(a)] followed by [advance_days(b)] gives the
    state of a single [advance_days(a + b)] made at the second call. *)
Theorem advance_days_twice (t1 t2 : date) (a b : Z) (s : PlantState) :
  0 < a -> 0 < b ->
  advance_days t2 b (advance_days t1 a s) = advance_days t2 (a + b) s.
Proof.
  intros Ha Hb. unfold advance_days. rewrite MAX_STAGE_INDEX_eq.
  replace (a <=? 0) with false by (symmetry; apply Z.leb_gt; lia).
  replace (b <=? 0) with false by (symmetry; apply Z.leb_gt; lia).
  replace (a + b <=? 0) with false by (symmetry; apply Z.leb_gt; lia).
  simpl. f_equal; lia.
Qed.

Lemma advance_days_twice_witness :
  advance_days (mkdate 2024 3 5) 2
    (advance_days (mkdate 2024 3 3) 1 (mkPlantState (mkdate 2024 3 2) 0 1 []))
  = advance_days (mkdate 2024 3 5) (1 + 2)
      (mkPlantState (mkdate 2024 3 2) 0 1 []).
Proof.
  apply (advance_days_twice (mkdate 2024 3 3) (mkdate 2024 3 5) 1 2
           (mkPlantState (mkdate 2024 3 2) 0 1 [])); lia.
Defined.

(** X14. Each [water()] is worth one stage until bloom: from a stage of at
    most 3, [n] waterings leave [growth_stage = min(growth_stage + n, 3)],
    and for [n >= 1] the day count is
    [max(day_count, min(growth_stage + n, 3) + 1)]. *)
Theorem water_repeated (dates : list date) (s : PlantState) :
  growth_stage s <= 3 ->
  growth_stage (apply_ops (map OpWater dates) s)
  = Z.min (growth_stage s + Z.of_nat (List.length dates)) 3
  /\ (dates <> [] ->
      day_count (apply_ops (map OpWater dates) s)
      = Z.max (day_count s)
          (Z.min (growth_stage s + Z.of_nat (List.length dates)) 3 + 1)).
Proof.
  unfold apply_ops. revert s.
  induction dates as [|t dates IH]; intros s H.
  - simpl. split; [lia | congruence].
  - cbn [map fold_left apply_op List.length].
    assert (Hg : growth_stage (water t s) = Z.min (growth_stage s + 1) 3).
    { unfold water. rewrite MAX_STAGE_INDEX_eq. simpl.
      destruct (growth_stage s <? 3) eqn:E;
        [apply Z.ltb_lt in E | apply Z.ltb_ge in E]; lia. }
    assert (Hd : day_count (water t s)
                 = Z.max (day_count s) (Z.min (growth_stage s + 1) 3 + 1)).
    { rewrite <- Hg. reflexivity. }
    destruct (IH (water t s) ltac:(lia)) as [IHg IHd].
    rewrite Nat2Z.inj_succ. split.
    + rewrite IHg, Hg. lia.
    + intros _. destruct dates as [|t' dates'].
      * cbn [map fold_left List.length]. rewrite Hd. lia.
      * rewrite IHd by discriminate. rewrite Hd, Hg.
        set (n := Z.of_nat (List.length (t' :: dates'))).
        assert (0 <= n) by apply Nat2Z.is_nonneg.
        lia.
Qed.

Lemma water_repeated_witness :
  growth_stage
    (apply_ops (map OpWater [mkdate 2024 3 3; mkdate 2024 3 3;
                             mkdate 2024 3 4; mkdate 2024 3 4])
       (mkPlantState (mkdate 2024 3 1) 1 1 []))
  = Z.min (1 + Z.of_nat 4) 3
  /\ ([mkdate 2024 3 3; mkdate 2024 3 3; mkdate 2024 3 4; mkdate 2024 3 4]
      <> [] ->
      day_count
        (apply_ops (map OpWater [mkdate 2024 3 3; mkdate 2024 3 3;
                                 mkdate 2024 3 4; mkdate 2024 3 4])
           (mkPlantState (mkdate 2024 3 1) 1 1 []))
      = Z.max 1 (Z.min (1 + Z.of_nat 4) 3 + 1)).
Proof.
  apply (water_repeated
           [mkdate 2024 3 3; mkdate 2024 3 3; mkdate 2024 3 4; mkdate 2024 3 4]
           (mkPlantState (mkdate 2024 3 1) 1 1 [])).
  simpl. lia.
Defined.

(** X15. What one run does to the counters, in closed form: with [d] the
    days since the loaded [last_opened] and [e = max(d, 0)], a run saves
    [growth_stage = min(growth_stage + e + water, 3)] ([water] being 1 with
    the flag and 0 without), [day_count + e] without the flag and
    [max(day_count + e, new stage + 1)] with it; [last_opened] becomes today
    exactly when [d > 0] or the flag is given. *)
Theorem run_state_closed_form (b : bool) (today : date) (s : PlantState) :
  growth_stage s <= 3 ->
  let d := days_between today (last_opened s) in
  let e := Z.max d 0 in
  let g := Z.min (growth_stage s + e + (if b then 1 else 0)) 3 in
  growth_stage (run_state b today s) = g
  /\ day_count (run_state b today s)
     = (if b then Z.max (day_count s + e) (g + 1) else day_count s + e)
  /\ last_opened (run_state b today s)
     = (if b || (0 <? d) then today else last_opened s)
  /\ extra (run_state b today s) = extra s.
Proof.
  intros H d e g. subst g e.
  split; [|split; [|split; [|apply run_state_extra]]];
    unfold run_state; fold d;
    unfold water, advance_days; rewrite MAX_STAGE_INDEX_eq;
    destruct (0 <? d) eqn:E;
    [apply Z.ltb_lt in E | apply Z.ltb_ge in E
    |apply Z.ltb_lt in E | apply Z.ltb_ge in E
    |apply Z.ltb_lt in E | apply Z.ltb_ge in E];
    try (replace (d <=? 0) with false by (symmetry; apply Z.leb_gt; lia));
    destruct b; cbn [growth_stage day_count last_opened orb];
    try reflexivity;
    repeat match goal with
           | |- context [?x <? 3] =>
               let E' := fresh "E" in
               destruct (x <? 3) eqn:E';
               [apply Z.ltb_lt in E' | apply Z.ltb_ge in E']
           end;
    lia.
Qed.

Lemma run_state_closed_form_witness :
  growth_stage
    (run_state true (mkdate 2024 3 3) (mkPlantState (mkdate 2024 3 2) 0 1 []))
  = 2
  /\ day_count
       (run_state true (mkdate 2024 3 3)
          (mkPlantState (mkdate 2024 3 2) 0 1 []))
     = 3.
Proof.
  destruct (run_state_closed_form true (mkdate 2024 3 3)
              (mkPlantState (mkdate 2024 3 2) 0 1 []))
    as (Hg & Hd & _).
  - simpl. lia.
  - split; [exact Hg | exact Hd].
Defined.

(** ** The response outside the stage range *)

(** X16. [build_response] indexes [STAGE_NAMES] as Python does: it raises
    [IndexError] exactly when [growth_stage] is below -4 or above 3, and
    raises nothing else; a stage from -4 to -1 counts from the end of the
    list (-1 is "bloom") while [stage_index] reports the negative stage
    itself. *)
Theorem build_response_index_error (s : PlantState) (days_idle : Z) :
  (build_response s days_idle = Raise IndexError
   <-> growth_stage s < -4 \/ 3 < growth_stage s)
  /\ (forall e, build_response s days_idle = Raise e -> e = IndexError)
  /\ (-4 <= growth_stage s <= 3 ->
      exists stage,
        nth_error STAGE_NAMES (Z.to_nat (growth_stage s mod 4)) = Some stage
        /\ build_response s days_idle = Ok (response_of stage s days_idle)).
Proof.
  assert (Hin : -4 <= growth_stage s <= 3 ->
                exists stage,
                  nth_error STAGE_NAMES (Z.to_nat (growth_stage s mod 4))
                  = Some stage
                  /\ build_response s days_idle
                     = Ok (response_of stage s days_idle)).
  { intros H.
    assert (C : growth_stage s = -4 \/ growth_stage s = -3
                \/ growth_stage s = -2 \/ growth_stage s = -1
                \/ growth_stage s = 0 \/ growth_stage s = 1
                \/ growth_stage s = 2 \/ growth_stage s = 3) by lia.
    unfold build_response, response_of.
    destruct C as [C|[C|[C|[C|[C|[C|[C|C]]]]]]]; rewrite C; simpl;
      eexists; split; reflexivity. }
  assert (Hout : growth_stage s < -4 \/ 3 < growth_stage s ->
                 build_response s days_idle = Raise IndexError).
  { intros H. unfold build_response, py_index.
    change (Z.of_nat (List.length STAGE_NAMES)) with 4.
    destruct (growth_stage s <? 0) eqn:E;
      [apply Z.ltb_lt in E | apply Z.ltb_ge in E].
    - replace ((0 <=? growth_stage s + 4) && (growth_stage s + 4 <? 4))
        with false; [reflexivity|].
      symmetry. apply andb_false_iff. left. apply Z.leb_gt. lia.
    - replace ((0 <=? growth_stage s) && (growth_stage s <? 4))
        with false; [reflexivity|].
      symmetry. apply andb_false_iff. right. apply Z.ltb_ge. lia. }
  assert (Hcases : (growth_stage s < -4 \/ 3 < growth_stage s)
                   \/ -4 <= growth_stage s <= 3) by lia.
  split; [|split; [|exact Hin]].
  - split; [|exact Hout].
    intros Hr. destruct Hcases as [C|C]; [exact C|].
    destruct (Hin C) as (stage & _ & Hok). rewrite Hok in Hr. discriminate.
  - intros e Hr. destruct Hcases as [C|C].
    + rewrite (Hout C) in Hr. inversion Hr. reflexivity.
    + destruct (Hin C) as (stage & _ & Hok). rewrite Hok in Hr. discriminate.
Qed.

(** ** Saving any state and loading it *)


